(** * Customer lifetime value pipeline ([clv_prediction.py])

    A shallow embedding of the script: the transaction cleaner (lines 39-55),
    the observation cutoff and the RFM aggregation call (lines 62-78), the CLV
    combiner (lines 84-160) and the control flow of the whole script with its
    console output, exits and uncaught exceptions.

    Conventions.
    - A DataFrame is the list of its rows, in row order; a column is the list
      of the corresponding cells.
    - Cells keep the dynamic types pandas gives them: an invoice number is an
      integer or a string, a customer id is a float (with NaN for a missing
      one) until [astype(int)], a date is text until [pd.to_datetime].
    - Decimal and float values are rationals, products in lowest terms; [NaN]
      is kept as a separate value.  Rounding, infinities, missing dates and
      the range of pandas' timestamps are outside the model.
    - The header normalisation of lines 29-37 only renames columns; rows are
      given with the names it produces.
    - Timestamps and durations are integers in nanoseconds, pandas' unit. *)

From Stdlib Require Import List ZArith QArith Qreduction String Ascii Bool Lia.
From Stdlib Require Import DecimalString Permutation.
Import ListNotations.

Local Open Scope Z_scope.

(** ** Cells *)

(** A float64 value: a finite number or NaN. *)
Inductive float64 : Type :=
| Fin (q : Q)
| NaN.

(** [InvoiceNo]: the sheet mixes integer cells (536365) and text cells
    ('C536379'); an empty cell is NaN. *)
Inductive InvoiceCell : Type :=
| InvInt (n : Z)
| InvStr (s : string)
| InvMissing.

(** [CustomerID]: a float column on loading (NaN when missing), an integer
    column after [astype(int)]. *)
Inductive CustomerCell : Type :=
| CidMissing
| CidFloat (q : Q)
| CidInt (z : Z).

(** [InvoiceDate]: text still to be parsed, or a timestamp. *)
Inductive DateCell : Type :=
| DateStr (s : string)
| DateTs (t : Z).

(** One row of the frame, after the renaming of lines 29-37.  [total_price] is
    [None] as long as the column does not exist. *)
Record Row : Type := mkRow {
  invoice : InvoiceCell;
  stock_code : string;
  description : string;
  quantity : option Z;
  invoice_date : DateCell;
  unit_price : float64;
  customer_id : CustomerCell;
  country : string;
  total_price : option float64
}.

Definition DataFrame : Type := list Row.

Definition set_customer_id (c : CustomerCell) (r : Row) : Row :=
  mkRow (invoice r) (stock_code r) (description r) (quantity r)
        (invoice_date r) (unit_price r) c (country r) (total_price r).

Definition set_total_price (p : float64) (r : Row) : Row :=
  mkRow (invoice r) (stock_code r) (description r) (quantity r)
        (invoice_date r) (unit_price r) (customer_id r) (country r) (Some p).

Definition set_invoice_date (d : DateCell) (r : Row) : Row :=
  mkRow (invoice r) (stock_code r) (description r) (quantity r)
        d (unit_price r) (customer_id r) (country r) (total_price r).

(** ** Float arithmetic used by the script *)

(** [x * y]; NaN propagates. *)
Definition fmul (x y : float64) : float64 :=
  match x, y with
  | Fin a, Fin b => Fin (Qred (a * b))
  | _, _ => NaN
  end.

(** [x > 0]; a comparison with NaN is False. *)
Definition fgt0 (x : float64) : bool :=
  match x with
  | Fin q => 0 <? Qnum q
  | NaN => false
  end.

(** An integer column value taking part in float arithmetic. *)
Definition float_of_int (z : Z) : float64 := Fin (inject_Z z).

(** ** Strings *)

(** [prefix p s]: [s] starts with [p]. *)
Fixpoint prefix (p s : string) : bool :=
  match p with
  | EmptyString => true
  | String a p' =>
      match s with
      | EmptyString => false
      | String b s' => Ascii.eqb a b && prefix p' s'
      end
  end.

(** [Series.str.contains(pat)] on one cell, for a pattern without regular
    expression operators (the script's pattern is 'C'): [pat] occurs somewhere
    in [s], compared character by character (case=True is the default). *)
Fixpoint str_contains (pat s : string) : bool :=
  prefix pat s ||
  match s with
  | EmptyString => false
  | String _ s' => str_contains pat s'
  end.

(** [astype(str)] on an invoice cell: integers print in decimal, text is kept,
    a missing cell becomes the text 'nan'. *)
Definition astype_str (c : InvoiceCell) : string :=
  match c with
  | InvInt n => NilZero.string_of_int (Z.to_int n)
  | InvStr s => s
  | InvMissing => "nan"%string
  end.

(** ** 1. The transaction cleaner (lines 39-55) *)

(** Line 40: [df.dropna(subset=['customer_id'])]. *)
Definition has_customer_id (r : Row) : bool :=
  match customer_id r with
  | CidMissing => false
  | _ => true
  end.

Definition dropna_customer_id (df : DataFrame) : DataFrame :=
  filter has_customer_id df.

(** The range of int64, the type [astype(int)] converts to. *)
Definition int64_min : Z := - 2 ^ 63.
Definition int64_max : Z := 2 ^ 63 - 1.

(** Line 41: [astype(int)] truncates a float towards zero; a float whose
    integer part does not fit int64 becomes [int64_min] (what the conversion
    gives on x86-64). *)
Definition trunc (q : Q) : Z :=
  let z := Z.quot (Qnum q) (Zpos (Qden q)) in
  if (int64_min <=? z) && (z <=? int64_max) then z else int64_min.

Definition astype_int (c : CustomerCell) : CustomerCell :=
  match c with
  | CidMissing => CidMissing
  | CidFloat q => CidInt (trunc q)
  | CidInt z => CidInt z
  end.

Definition customer_id_astype_int (df : DataFrame) : DataFrame :=
  map (fun r => set_customer_id (astype_int (customer_id r)) r) df.

(** Line 44: [df[~df['invoice'].astype(str).str.contains('C', na=False)]]. *)
Definition not_cancelled (r : Row) : bool :=
  negb (str_contains "C" (astype_str (invoice r))).

Definition drop_cancelled (df : DataFrame) : DataFrame :=
  filter not_cancelled df.

(** Line 48: [df[df['quantity'] > 0]]. *)
Definition quantity_positive (r : Row) : bool :=
  match quantity r with
  | Some q => 0 <? q
  | None => false
  end.

(** Line 49: [df[df['unit_price'] > 0]]. *)
Definition unit_price_positive (r : Row) : bool := fgt0 (unit_price r).

(** Line 52: [df['quantity'] * df['unit_price']]. *)
Definition line_total (r : Row) : float64 :=
  match quantity r with
  | Some q => fmul (float_of_int q) (unit_price r)
  | None => NaN
  end.

Definition add_total_price (df : DataFrame) : DataFrame :=
  map (fun r => set_total_price (line_total r) r) df.

(** Uncaught exceptions are named by their Python class. *)
Definition Exn : Type := string.

Section Cleaner.

(** The date parser behind [pd.to_datetime]: the timestamp a text denotes,
    or [None] when the text is not a date. *)
Variable parse_datetime : string -> option Z.

(** Line 55 on one cell: timestamps are kept, text is parsed. *)
Definition to_datetime_cell (d : DateCell) : option DateCell :=
  match d with
  | DateTs t => Some (DateTs t)
  | DateStr s => option_map DateTs (parse_datetime s)
  end.

(** Line 55 on the column; one unparsable cell raises.  One parser reads
    every text: a column whose texts follow different formats, which pandas
    may reject as a whole, is outside the model. *)
Fixpoint to_datetime (df : DataFrame) : Exn + DataFrame :=
  match df with
  | [] => inr []
  | r :: rest =>
      match to_datetime_cell (invoice_date r) with
      | None => inl "ValueError"%string
      | Some d =>
          match to_datetime rest with
          | inl e => inl e
          | inr rest' => inr (set_invoice_date d r :: rest')
          end
      end
  end.

(** Lines 40-52, the steps that cannot raise. *)
Definition filter_rows (df : DataFrame) : DataFrame :=
  add_total_price
    (filter unit_price_positive
       (filter quantity_positive
          (drop_cancelled
             (customer_id_astype_int
                (dropna_customer_id df))))).

(** Lines 40-55. *)
Definition clean (df : DataFrame) : Exn + DataFrame :=
  to_datetime (filter_rows df).

End Cleaner.

(** ** 2. Observation cutoff and RFM aggregation (lines 62-78) *)

(** One day, the [dt.timedelta(days=1)] of line 64, in nanoseconds. *)
Definition day : Z := 86400000000000.

(** The [invoice_date] column as a datetime column.  Line 64 runs after
    [pd.to_datetime], when every cell of the column is a timestamp. *)
Definition invoice_dates (df : DataFrame) : list Z :=
  flat_map (fun r => match invoice_date r with
                     | DateTs t => [t]
                     | DateStr _ => []
                     end) df.

(** [Series.max()] of a datetime column; [None] is NaT, the maximum of an
    empty column. *)
Definition series_max (col : list Z) : option Z :=
  match col with
  | [] => None
  | t :: rest => Some (fold_right Z.max t rest)
  end.

(** Line 64: [df['invoice_date'].max() + dt.timedelta(days=1)]; NaT plus a
    duration is NaT. *)
Definition observation_period_end (df : DataFrame) : option Z :=
  option_map (fun m => m + day) (series_max (invoice_dates df)).

(** The three columns the call of lines 72-78 hands to the aggregator:
    [customer_id_col], [datetime_col] and [monetary_value_col]. *)
Record Transaction : Type := mkTransaction {
  tx_customer : Z;
  tx_time : Z;
  tx_value : Q
}.

Definition transaction_of_row (r : Row) : option Transaction :=
  match customer_id r, invoice_date r, total_price r with
  | CidInt c, DateTs t, Some (Fin v) => Some (mkTransaction c t v)
  | _, _, _ => None
  end.

(** The rows of the frame as the aggregator reads them; a cleaned frame gives
    one transaction per row (see [transactions_of_cleaned]). *)
Definition transactions (df : DataFrame) : list Transaction :=
  flat_map (fun r => match transaction_of_row r with
                     | Some t => [t]
                     | None => []
                     end) df.

(** One row of [rfm_df]; the customer id is the index of the frame. *)
Record CustomerSummary : Type := mkSummary {
  cs_customer_id : Z;
  frequency : Z;
  recency : Z;
  T : Z;
  monetary_value : Q
}.

Module RFM.

(** Modelled from the spec: the grouping step of
    [lifetimes.utils.summary_data_from_transaction_data], which the script
    imports and the repository does not contain.  "Group lines by
    customer_id", "one entry per distinct customer_id". *)
Definition customers (txs : list Transaction) : list Z :=
  nodup Z.eq_dec (map tx_customer txs).

(** Modelled from the spec: the lines of one customer (the group of
    [summary_data_from_transaction_data] for that customer_id). *)
Definition purchases_of (c : Z) (txs : list Transaction) : list Transaction :=
  filter (fun t => tx_customer t =? c) txs.

(** Modelled from the spec: "first = earliest timestamp" of a group of
    [summary_data_from_transaction_data]. *)
Definition earliest (times : list Z) : Z :=
  match times with
  | [] => 0
  | t :: rest => fold_right Z.min t rest
  end.

(** Modelled from the spec: "last = latest timestamp" of a group of
    [summary_data_from_transaction_data]. *)
Definition latest (times : list Z) : Z :=
  match times with
  | [] => 0
  | t :: rest => fold_right Z.max t rest
  end.

(** Modelled from the spec: the repeat purchases of a group of
    [summary_data_from_transaction_data], "strictly after the customer's first
    purchase ... occurring before the observation cutoff". *)
Definition repeat_purchases (cutoff : Z) (group : list Transaction)
  : list Transaction :=
  let first := earliest (map tx_time group) in
  filter (fun t => (first <? tx_time t) && (tx_time t <? cutoff)) group.

(** Modelled from the spec: the purchase occasions of
    [summary_data_from_transaction_data].  The spec asks for "a single,
    consistently-applied definition" of an occasion; here an occasion is one
    purchase time, so the lines sharing a timestamp are one occasion. *)
Definition occasions (group : list Transaction) : list Z :=
  nodup Z.eq_dec (map tx_time group).

(** Modelled from the spec: the sum of [total_price] over lines, the
    numerator of the mean in [summary_data_from_transaction_data]. *)
Definition total_value (group : list Transaction) : Q :=
  fold_right (fun t acc => Qplus (tx_value t) acc) (0 # 1)%Q group.

(** Modelled from the spec: one CustomerSummary of
    [summary_data_from_transaction_data].  "frequency = number of distinct
    purchase occasions after first.  recency = last - first.  age = cutoff -
    first.  monetary_value = mean total_price over the ... repeat occasions;
    if frequency = 0, monetary_value = 0". *)
Definition summarise (cutoff : Z) (c : Z) (group : list Transaction)
  : CustomerSummary :=
  let first := earliest (map tx_time group) in
  let last := latest (map tx_time group) in
  let repeats := repeat_purchases cutoff group in
  let freq := Z.of_nat (List.length (occasions repeats)) in
  mkSummary c freq (last - first) (cutoff - first)
            (if freq =? 0 then (0 # 1)%Q
             else Qred (total_value repeats / inject_Z freq)).

(** Modelled from the spec: [summary_data_from_transaction_data] itself
    (section 4.2, "RFM Aggregator"): cleaned lines and an explicit observation
    cutoff in, one summary per distinct customer out, in the order in which
    the customers first occur. *)
Definition summary_data_from_transaction_data
  (txs : list Transaction) (cutoff : Z) : list CustomerSummary :=
  map (fun c => summarise cutoff c (purchases_of c txs)) (customers txs).

End RFM.

(** Lines 72-78: the aggregation call of the script. *)
Definition rfm_of (df : DataFrame) (cutoff : Z) : list CustomerSummary :=
  RFM.summary_data_from_transaction_data (transactions df) cutoff.

(** ** 3. The CLV combiner (lines 84-160) *)

(** A pandas Series indexed by customer id: labels and values, in order. *)
Definition Series : Type := list (Z * float64).

(** [Series.values]: the values without the index. *)
Definition values (s : Series) : list float64 := map snd s.

(** Label lookup in a Series. *)
Fixpoint lookup (c : Z) (s : Series) : option float64 :=
  match s with
  | [] => None
  | (k, v) :: rest => if k =? c then Some v else lookup c rest
  end.

(** Line 86: [rfm_df[rfm_df['frequency'] > 0]]. *)
Definition repeat_customers (rfm : list CustomerSummary)
  : list CustomerSummary :=
  filter (fun s => 0 <? frequency s) rfm.

(** Line 121: [PREDICTION_PERIOD_MONTHS * 30.4375]. *)
Definition PREDICTION_PERIOD_MONTHS : Z := 6.
Definition days_in_prediction_period : Q :=
  (inject_Z PREDICTION_PERIOD_MONTHS * (304375 # 10000))%Q.

(** A row of [rfm_df] once [predicted_purchases] (line 122) and
    [predicted_monetary_value] (line 148) exist. *)
Record Scored : Type := mkScored {
  sc_summary : CustomerSummary;
  sc_purchases : float64;
  sc_monetary : float64
}.

(** A row of the final table (after line 160). *)
Record PredictionRecord : Type := mkPrediction {
  summary : CustomerSummary;
  predicted_purchases : float64;
  predicted_monetary_value : float64;
  predicted_clv : float64
}.

(** Line 155: [rfm_df.loc[rfm_df['frequency'] > 0, 'predicted_monetary_value']
    = vals].  The values are written by position into the rows the mask
    selects, in row order.  The write needs one value per selected row; with
    any other number of values it does not take place ([None]; pandas raises
    a ValueError, 'Must have equal len keys and value when setting with an
    iterable'). *)
Fixpoint loc_assign (rows : list Scored) (vals : list float64)
  : option (list Scored) :=
  match rows with
  | [] => match vals with
          | [] => Some []
          | _ :: _ => None
          end
  | r :: rest =>
      if 0 <? frequency (sc_summary r) then
        match vals with
        | [] => None
        | v :: vals' =>
            option_map (cons (mkScored (sc_summary r) (sc_purchases r) v))
                       (loc_assign rest vals')
        end
      else option_map (cons r) (loc_assign rest vals)
  end.

(** Line 160: [predicted_purchases * predicted_monetary_value]. *)
Definition add_predicted_clv (r : Scored) : PredictionRecord :=
  mkPrediction (sc_summary r) (sc_purchases r) (sc_monetary r)
               (fmul (sc_purchases r) (sc_monetary r)).

Section Combiner.

(** The fitted purchase model (BG/NBD) and its prediction for one customer,
    [bgf.predict(t, frequency, recency, T)]: one value per row, in row
    order. *)
Variable BGModel : Type.
Variable bg_predict : BGModel -> Q -> Z -> Z -> Z -> float64.

(** The fitted monetary model (Gamma-Gamma) and
    [ggf.conditional_expected_average_profit(frequency, monetary_value)]: it
    receives the two columns of the repeat customers with their index and
    returns a Series labelled by customer id. *)
Variable GGModel : Type.
Variable conditional_expected_average_profit :
  GGModel -> list (Z * (Z * Q)) -> Series.

(** The (frequency, monetary_value) columns of a frame, with its index. *)
Definition monetary_inputs (rfm : list CustomerSummary) : list (Z * (Z * Q)) :=
  map (fun s => (cs_customer_id s, (frequency s, monetary_value s))) rfm.

(** Lines 122-127 and 148: the new columns [predicted_purchases] and
    [predicted_monetary_value = 0.0]. *)
Definition initial_scores (bgf : BGModel) (rfm : list CustomerSummary)
  : list Scored :=
  map (fun s => mkScored s
                  (bg_predict bgf days_in_prediction_period
                              (frequency s) (recency s) (T s))
                  (Fin 0))
      rfm.

(** Lines 151-154. *)
Definition merged_monetary (ggf : GGModel) (rfm : list CustomerSummary)
  : Series :=
  conditional_expected_average_profit ggf
    (monetary_inputs (repeat_customers rfm)).

(** Lines 122-160: from the summaries and the two fitted models to the final
    table. *)
Definition combine (bgf : BGModel) (ggf : GGModel)
  (rfm : list CustomerSummary) : Exn + list PredictionRecord :=
  match loc_assign (initial_scores bgf rfm)
                   (values (merged_monetary ggf rfm)) with
  | None => inl "ValueError"%string
  | Some rows => inr (map add_predicted_clv rows)
  end.

End Combiner.

(** ** 4. The script as a whole *)

(** What a run does that can be observed from outside. *)
Inductive Event : Type :=
| Printed (s : string)                         (* a line on standard output *)
| Display (what : string)                    (* a frame, model summary or figure shown *)
| ToCsv (path : string) (rows : list (Z * float64)).  (* a file written *)

(** How a run ends early: [exit(code)], or an exception nothing catches. *)
Inductive Exit : Type :=
| SystemExit (code : option Z)
| Uncaught (e : Exn).

(** A computation of the script: its events so far and either a value or the
    early end of the run. *)
Inductive Run (A : Type) : Type :=
| Done (out : list Event) (a : A)
| Stop (out : list Event) (e : Exit).

Arguments Done {A} out a.
Arguments Stop {A} out e.

Definition ret {A : Type} (a : A) : Run A := Done [] a.

Definition bind {A B : Type} (m : Run A) (k : A -> Run B) : Run B :=
  match m with
  | Done out a =>
      match k a with
      | Done out' b => Done (out ++ out') b
      | Stop out' e => Stop (out ++ out') e
      end
  | Stop out e => Stop out e
  end.

Notation "x <- m ;; k" := (bind m (fun x => k))
  (at level 61, m at next level, right associativity).
Notation "m ;; k" := (bind m (fun _ => k))
  (at level 61, right associativity).

Definition print (s : string) : Run unit := Done [Printed s] tt.
Definition display (what : string) : Run unit := Done [Display what] tt.
Definition to_csv (path : string) (rows : list (Z * float64)) : Run unit :=
  Done [ToCsv path rows] tt.

(** The builtin [exit()] called without a status: [SystemExit(None)]. *)
Definition exit {A : Type} : Run A := Stop [] (SystemExit None).

Definition raise {A : Type} (e : Exn) : Run A := Stop [] (Uncaught e).

Definition lift {A : Type} (r : Exn + A) : Run A :=
  match r with
  | inl e => raise e
  | inr a => ret a
  end.

(** The exit status of the process: 0 for [SystemExit(None)], the given status
    otherwise; 1 after an uncaught exception. *)
Definition exit_status (e : Exit) : Z :=
  match e with
  | SystemExit None => 0
  | SystemExit (Some n) => n
  | Uncaught _ => 1
  end.

Definition output {A : Type} (r : Run A) : list Event :=
  match r with
  | Done out _ => out
  | Stop out _ => out
  end.

Definition status {A : Type} (r : Run A) : Z :=
  match r with
  | Done _ _ => 0
  | Stop _ e => exit_status e
  end.

(** The events that are files written. *)
Definition is_write (e : Event) : bool :=
  match e with
  | ToCsv _ _ => true
  | _ => false
  end.

(** What [pd.read_excel(DATA_FILE)] does (lines 18-26). *)
Inductive LoadResult : Type :=
| Loaded (df : DataFrame)
| FileNotFoundError
| OtherException (e : string).

Local Open Scope string_scope.

Definition DATA_FILE : string := "Online Retail.xlsx".
Definition output_filename : string := "clv_predictions.csv".

Definition nl : string := String (ascii_of_nat 10) EmptyString.
Definition str_of_nat (n : nat) : string := NilZero.string_of_uint (Nat.to_uint n).
Definition str_of_Z (z : Z) : string := NilZero.string_of_int (Z.to_int z).

Section Script.

Variable parse_datetime : string -> option Z.

(** [Timestamp.strftime('%Y-%m-%d')]. *)
Variable strftime : Z -> string.

(** [BetaGeoFitter(penalizer_coef=0.1).fit(frequency, recency, T)] and
    [GammaGammaFitter(penalizer_coef=0.1).fit(frequency, monetary_value)]:
    a fitted model, or the exception the fitter raises. *)
Variable BGModel : Type.
Variable bg_fit : list Z -> list Z -> list Z -> Exn + BGModel.
Variable bg_predict : BGModel -> Q -> Z -> Z -> Z -> float64.
Variable GGModel : Type.
Variable gg_fit : list Z -> list Q -> Exn + GGModel.
Variable conditional_expected_average_profit :
  GGModel -> list (Z * (Z * Q)) -> Series.

(** Lines 17-26. *)
Definition load (src : LoadResult) : Run DataFrame :=
  print "--- 1. Loading and Preprocessing Data ---" ;;
  match src with
  | Loaded df =>
      print ("Successfully loaded '" ++ DATA_FILE ++ "'. Initial rows: "
             ++ str_of_nat (List.length df)) ;;
      ret df
  | FileNotFoundError =>
      print ("Error: '" ++ DATA_FILE
             ++ "' not found. Please ensure the dataset is in the same directory.") ;;
      exit
  | OtherException e =>
      print ("An error occurred while loading the data: " ++ e) ;;
      exit
  end.

(** Lines 62-65.  [NaT.strftime] raises ValueError, so an empty date column
    ends the run at line 65.  Formatting an actual timestamp is taken to succeed (the
    range of timestamps is outside the model). *)
Definition cutoff_stage (df : DataFrame) : Run Z :=
  match observation_period_end df with
  | None => raise "ValueError"
  | Some c =>
      print ("Observation period ends on: " ++ strftime c) ;;
      ret c
  end.

(** Lines 104-160. *)
Definition model_stage (rfm : list CustomerSummary)
  : Run (list PredictionRecord) :=
  print (nl ++ "--- 3. Training Probabilistic CLV Models ---") ;;
  print (nl ++ "Fitting BG/NBD Model...") ;;
  bgf <- lift (bg_fit (map frequency rfm) (map recency rfm) (map T rfm)) ;;
  print (nl ++ "BG/NBD Model Summary:") ;;
  display "bgf.summary" ;;
  print (nl ++ "Predicted purchases for the next "
         ++ str_of_Z PREDICTION_PERIOD_MONTHS ++ " months calculated.") ;;
  print (nl ++ "Fitting Gamma-Gamma Model...") ;;
  ggf <- lift (gg_fit (map frequency (repeat_customers rfm))
                      (map monetary_value (repeat_customers rfm))) ;;
  print (nl ++ "Gamma-Gamma Model Summary:") ;;
  display "ggf.summary" ;;
  print (nl ++ "Calculating CLV for the next "
         ++ str_of_Z PREDICTION_PERIOD_MONTHS ++ " months...") ;;
  table <- lift (combine BGModel bg_predict GGModel
                         conditional_expected_average_profit bgf ggf rfm) ;;
  print (nl ++ "--- CLV Prediction Complete ---") ;;
  ret table.

(** Lines 59-101: the cutoff, the aggregation call and the console summary
    of the RFM table. *)
Definition rfm_stage (df : DataFrame) : Run (list CustomerSummary) :=
  print (nl ++ "--- 2. Performing RFM Feature Engineering ---") ;;
  cutoff <- cutoff_stage df ;;
  let rfm := rfm_of df cutoff in
  print (nl ++ "RFM Summary Data Head:") ;;
  display "rfm_df.head()" ;;
  print (nl ++ "Total unique customers for RFM analysis: "
         ++ str_of_nat (List.length rfm)) ;;
  print ("Customers with repeat purchases (for Gamma-Gamma model): "
         ++ str_of_nat (List.length (repeat_customers rfm))) ;;
  display "plt.show()" ;;
  ret rfm.

(** Lines 164-174. *)
Definition export_stage (table : list PredictionRecord) : Run unit :=
  print (nl ++ "Top 10 Customers by Predicted CLV (next "
         ++ str_of_Z PREDICTION_PERIOD_MONTHS ++ " months):") ;;
  display "top_clv_customers" ;;
  to_csv output_filename
         (map (fun r => (cs_customer_id (summary r), predicted_clv r)) table) ;;
  print (nl ++ "Predicted CLV for all customers saved to '"
         ++ output_filename ++ "'") ;;
  print (nl ++ "--- Script Finished ---").

(** The script, top to bottom. *)
Definition main (src : LoadResult) : Run unit :=
  raw <- load src ;;
  df <- lift (clean parse_datetime raw) ;;
  print ("Data after cleaning: " ++ str_of_nat (List.length df) ++ " rows.") ;;
  rfm <- rfm_stage df ;;
  table <- model_stage rfm ;;
  export_stage table.

End Script.

Local Close Scope string_scope.

(** ** 5. Properties named by the specification *)

(** The characters of a string. *)
Definition chars (s : string) : list ascii := list_ascii_of_string s.

(** The TransactionLine invariant of the data model, on a row of the frame. *)
Definition TransactionLine_inv (r : Row) : Prop :=
  exists (c q : Z) (p tp : Q),
    customer_id r = CidInt c /\
    quantity r = Some q /\ 0 < q /\
    unit_price r = Fin p /\ (0 < p)%Q /\
    ~ In "C"%char (chars (astype_str (invoice r))) /\
    total_price r = Some (Fin tp) /\ (tp == inject_Z q * p)%Q.

(** What the cleaner leaves in a row, cell by cell. *)
Definition cleaned_row (r : Row) : Prop :=
  (exists c, customer_id r = CidInt c) /\
  not_cancelled r = true /\
  quantity_positive r = true /\
  unit_price_positive r = true /\
  total_price r = Some (line_total r) /\
  (exists t, invoice_date r = DateTs t).

(** The stored monetary predictions agree, customer by customer, with the
    Series the monetary model returned. *)
Definition matched_by_customer_id (s : Series) (table : list PredictionRecord)
  : Prop :=
  forall r, In r table -> 0 < frequency (summary r) ->
    lookup (cs_customer_id (summary r)) s = Some (predicted_monetary_value r).

(** The run ends on an uncaught exception of the given class. *)
Definition ends_with {A : Type} (cls : Exn) (r : Run A) : Prop :=
  exists out, r = Stop out (Uncaught cls).

(** ** 6. Sample data and stand-ins for the external collaborators *)

Module Sample.

Local Open Scope string_scope.

(** 2010-12-01 08:26:00 and 2010-12-09 12:50:00 as pandas timestamps. *)
Definition t_first : Z := 1291191960000000000.
Definition t_last : Z := 1291899000000000000.

(** A date parser that knows two dates. *)
Definition parse (s : string) : option Z :=
  if String.eqb s "2010-12-01 08:26:00" then Some t_first
  else if String.eqb s "2010-12-09 12:50:00" then Some t_last
  else None.

(** A formatter that prints the day number since the epoch. *)
Definition strftime (t : Z) : string := str_of_Z (t / day).

Definition purchase : Row :=
  mkRow (InvInt 536365) "85123A" "WHITE HANGING HEART T-LIGHT HOLDER"
        (Some 6) (DateStr "2010-12-01 08:26:00") (Fin (255 # 100))
        (CidFloat (17850 # 1)) "United Kingdom" None.

Definition repeat_purchase : Row :=
  mkRow (InvInt 581587) "22138" "BAKING SET 9 PIECE RETROSPOT"
        (Some 3) (DateTs t_last) (Fin (495 # 100))
        (CidFloat (17850 # 1)) "United Kingdom" None.

Definition cancellation : Row :=
  mkRow (InvStr "C536379") "D" "Discount"
        (Some (-1)) (DateStr "2010-12-01 08:26:00") (Fin (2750 # 100))
        (CidFloat (14527 # 1)) "United Kingdom" None.

Definition anonymous : Row :=
  mkRow (InvInt 536414) "22139" EmptyString
        (Some 56) (DateStr "2010-12-01 08:26:00") (Fin (0 # 1))
        CidMissing "United Kingdom" None.

Definition returned : Row :=
  mkRow (InvInt 536381) "22139" "RETROSPOT TEA SET CERAMIC 11 PC"
        (Some 0) (DateStr "2010-12-01 08:26:00") (Fin (425 # 100))
        (CidFloat (15311 # 1)) "United Kingdom" None.

(** An invoice id with the marker inside, and one with a lowercase c only. *)
Definition interior_marker : Row :=
  mkRow (InvStr "536C365") "85123A" EmptyString (Some 6) (DateTs t_first)
        (Fin (255 # 100)) (CidFloat (17850 # 1)) "United Kingdom" None.

Definition lowercase_marker : Row :=
  mkRow (InvStr "c536365") "85123A" EmptyString (Some 6) (DateTs t_first)
        (Fin (255 # 100)) (CidFloat (17850 # 1)) "United Kingdom" None.

Definition raw : DataFrame :=
  [purchase; cancellation; anonymous; returned; repeat_purchase].

(** [raw] after cleaning. *)
Definition cleaned : DataFrame :=
  [mkRow (InvInt 536365) "85123A" "WHITE HANGING HEART T-LIGHT HOLDER"
         (Some 6) (DateTs t_first) (Fin (255 # 100))
         (CidInt 17850) "United Kingdom" (Some (Fin (153 # 10)));
   mkRow (InvInt 581587) "22138" "BAKING SET 9 PIECE RETROSPOT"
         (Some 3) (DateTs t_last) (Fin (495 # 100))
         (CidInt 17850) "United Kingdom" (Some (Fin (297 # 20)))].

(** Stand-ins for the two fitted models: the purchase model predicts one
    purchase, the monetary model returns the observed mean. *)
Definition bg_fit (_ _ _ : list Z) : Exn + unit := inr tt.
Definition bg_predict (_ : unit) (_ : Q) (_ _ _ : Z) : float64 := Fin (1 # 1).
Definition gg_fit (_ : list Z) (_ : list Q) : Exn + unit := inr tt.

(** A monetary predictor that returns its Series in the order of its input. *)
Definition profit_in_order (_ : unit) (inputs : list (Z * (Z * Q))) : Series :=
  map (fun x => (fst x, Fin (snd (snd x)))) inputs.

(** A monetary predictor with the same labelled values, listed in the
    opposite order. *)
Definition profit_reordered (_ : unit) (inputs : list (Z * (Z * Q))) : Series :=
  rev (profit_in_order tt inputs).

(** Cleaned lines of three customers over eleven days: customer 1 buys on
    day 0 and day 10, customer 2 on day 0 only, customer 3 on days 2, 4
    and 7. *)
Definition line (n c t q : Z) (p : Q) : Row :=
  mkRow (InvInt n) EmptyString EmptyString (Some q) (DateTs t) (Fin p)
        (CidInt c) EmptyString
        (Some (fmul (float_of_int q) (Fin p))).

Definition history : DataFrame :=
  [line 1 1 0 2 (5 # 1);
   line 2 1 (10 * day) 1 (20 # 1);
   line 3 2 0 1 (100 # 1);
   line 4 3 (2 * day) 1 (5 # 1);
   line 5 3 (4 * day) 2 (25 # 1);
   line 6 3 (7 * day) 1 (50 # 1)].


(** The final table when it comes back in the order of the subset. *)
Definition assigned : list PredictionRecord :=
  [mkPrediction (mkSummary 1 1 (10 * day) (11 * day) (20 # 1))
                (Fin 1) (Fin 20) (Fin 20);
   mkPrediction (mkSummary 2 0 0 (11 * day) (0 # 1))
                (Fin 1) (Fin 0) (Fin 0);
   mkPrediction (mkSummary 3 2 (5 * day) (9 * day) (50 # 1))
                (Fin 1) (Fin 50) (Fin 50)].

(** The scenario of section 8 of the specification: Day0, Day10, cutoff
    Day11. *)
Definition scenario : list Transaction :=
  [mkTransaction 1 0 (10 # 1);
   mkTransaction 1 (10 * day) (20 # 1);
   mkTransaction 2 0 (100 # 1)].

(** A purchase model whose fit does not converge. *)
Definition bg_fit_fails (_ _ _ : list Z) : Exn + unit :=
  inl "ConvergenceError".




End Sample.

(** ** 7. The cleaner read as one pass *)

(** The four tests of lines 40, 44, 48 and 49 on one row. *)
Definition survives (r : Row) : bool :=
  has_customer_id r && not_cancelled r
  && quantity_positive r && unit_price_positive r.

(** The timestamp [pd.to_datetime] finds in a date cell, if any. *)
Definition date_value (parse_datetime : string -> option Z) (d : DateCell)
  : option Z :=
  match d with
  | DateTs t => Some t
  | DateStr s => parse_datetime s
  end.

(** A row after lines 41, 52 and 55, its date having become [t]. *)
Definition cleaned_form (t : Z) (r : Row) : Row :=
  mkRow (invoice r) (stock_code r) (description r) (quantity r)
        (DateTs t) (unit_price r) (astype_int (customer_id r)) (country r)
        (Some (line_total r)).

(** The files a run has written, in order. *)
Definition files_written {A : Type} (r : Run A) : list Event :=
  filter is_write (output r).

(** ** 8. Header normalisation (lines 28-37) *)

(** The characters [str.strip()] removes, among ASCII characters: tab, line
    feed, vertical tab, form feed, carriage return, the four separators
    0x1c-0x1f and the space.  Column names are taken to be ASCII. *)
Definition is_space (c : ascii) : bool :=
  let n := nat_of_ascii c in
  (Nat.leb 9 n && Nat.leb n 13) || (Nat.leb 28 n && Nat.leb n 32).

Fixpoint lstrip (s : string) : string :=
  match s with
  | EmptyString => EmptyString
  | String c s' => if is_space c then lstrip s' else s
  end.

Fixpoint rstrip (s : string) : string :=
  match s with
  | EmptyString => EmptyString
  | String c s' =>
      match rstrip s' with
      | EmptyString => if is_space c then EmptyString else String c EmptyString
      | String d t => String c (String d t)
      end
  end.

(** Line 29 on one column name: [str.strip()]. *)
Definition strip (s : string) : string := rstrip (lstrip s).

(** The dictionary of lines 30-37. *)
Definition COLUMN_NAMES : list (string * string) :=
  [("InvoiceNo", "invoice");
   ("StockCode", "stock_code");
   ("Description", "description");
   ("Quantity", "quantity");
   ("InvoiceDate", "invoice_date");
   ("UnitPrice", "unit_price");
   ("CustomerID", "customer_id");
   ("Country", "country")]%string.

(** [df.rename(columns=...)] on one name: names the dictionary does not list
    are kept. *)
Fixpoint rename_with (names : list (string * string)) (c : string) : string :=
  match names with
  | [] => c
  | (k, v) :: rest => if String.eqb c k then v else rename_with rest c
  end.

Definition rename_column (c : string) : string := rename_with COLUMN_NAMES c.

(** Lines 29-37 on the header of the frame. *)
Definition normalise_header (columns : list string) : list string :=
  map (fun c => rename_column (strip c)) columns.

(** A string of strippable characters only. *)
Definition blank (s : string) : bool := forallb is_space (chars s).

(** * Proofs *)

(** ** Lists *)

Lemma filter_all {A : Type} (f : A -> bool) (l : list A) :
  Forall (fun x => f x = true) l -> filter f l = l.
Proof.
  induction 1 as [|x l Hx _ IH]; simpl; [reflexivity|].
  rewrite Hx, IH. reflexivity.
Qed.

Lemma map_fixed {A : Type} (g : A -> A) (l : list A) :
  Forall (fun x => g x = x) l -> map g l = l.
Proof.
  induction 1 as [|x l Hx _ IH]; simpl; [reflexivity|].
  rewrite Hx, IH. reflexivity.
Qed.

(** ** Strings *)

Lemma prefix_char (ch : ascii) (s : string) :
  prefix (String ch EmptyString) s = true <->
  exists s', s = String ch s'.
Proof.
  destruct s as [|b s']; simpl.
  - split; [discriminate | intros [s' H]; discriminate].
  - rewrite andb_true_r, Ascii.eqb_eq. split.
    + intros ->. eauto.
    + intros [s'' H]. congruence.
Qed.

Lemma str_contains_char (ch : ascii) (s : string) :
  str_contains (String ch EmptyString) s = true <-> In ch (chars s).
Proof.
  induction s as [|b s' IH].
  - simpl. split; [discriminate | tauto].
  - change (str_contains (String ch EmptyString) (String b s'))
      with (prefix (String ch EmptyString) (String b s')
            || str_contains (String ch EmptyString) s').
    rewrite orb_true_iff, IH, prefix_char. simpl. split.
    + intros [[s'' H] | H]; [left; congruence | right; exact H].
    + intros [H | H]; [left; exists s'; congruence | right; exact H].
Qed.

Lemma not_cancelled_spec (r : Row) :
  not_cancelled r = true <-> ~ In "C"%char (chars (astype_str (invoice r))).
Proof.
  unfold not_cancelled. rewrite negb_true_iff, <- not_true_iff_false.
  rewrite (str_contains_char "C"). tauto.
Qed.

Lemma chars_app (s1 s2 : string) :
  chars (s1 ++ s2) = (chars s1 ++ chars s2)%list.
Proof.
  unfold chars. induction s1 as [|a s1 IH]; simpl; [reflexivity|].
  rewrite IH. reflexivity.
Qed.

(** The text of an integer has no letter in it, so a row whose invoice number
    is an integer cell always passes line 44. *)
Lemma uint_chars_not_C (d : Decimal.uint) :
  ~ In "C"%char (chars (NilEmpty.string_of_uint d)).
Proof.
  unfold chars.
  induction d; simpl; intros H; try (destruct H as [H | H];
    [discriminate H | exact (IHd H)]).
  exact H.
Qed.

Lemma integer_invoice_not_cancelled (r : Row) (n : Z) :
  invoice r = InvInt n -> not_cancelled r = true.
Proof.
  intros E. apply not_cancelled_spec. rewrite E. simpl.
  unfold NilZero.string_of_int, NilZero.string_of_uint.
  destruct (Z.to_int n) as [d | d].
  - destruct d; try apply uint_chars_not_C.
    unfold chars. simpl. intros [H | []]. discriminate H.
  - destruct d; unfold chars; simpl; intros [H | H]; try discriminate H;
      try (destruct H as [H | H]; [discriminate H|]);
      try (apply (uint_chars_not_C _ H)); try contradiction.
Qed.

(** ** The cleaner *)

Lemma fgt0_pos (x : float64) :
  fgt0 x = true <-> exists p, x = Fin p /\ (0 < p)%Q.
Proof.
  destruct x as [q|]; simpl.
  - rewrite Z.ltb_lt. unfold Qlt. simpl. split.
    + intros H. exists q. split; [reflexivity | lia].
    + intros [p [E H]]. injection E as <-. lia.
  - split; [discriminate | intros [p [E _]]; discriminate].
Qed.

Lemma quantity_positive_spec (r : Row) :
  quantity_positive r = true <-> exists q, quantity r = Some q /\ 0 < q.
Proof.
  unfold quantity_positive. destruct (quantity r) as [q|].
  - rewrite Z.ltb_lt. split.
    + intros H. eauto.
    + intros [q' [E H]]. congruence.
  - split; [discriminate | intros [q [E _]]; discriminate].
Qed.

(** Every row leaving lines 40-52 has all cleaned cells but the date. *)
Lemma filter_rows_inv (df : DataFrame) (r : Row) :
  In r (filter_rows df) ->
  (exists c, customer_id r = CidInt c) /\
  not_cancelled r = true /\
  quantity_positive r = true /\
  unit_price_positive r = true /\
  total_price r = Some (line_total r).
Proof.
  unfold filter_rows, add_total_price, drop_cancelled,
    customer_id_astype_int, dropna_customer_id.
  intros H. apply in_map_iff in H. destruct H as [r1 [<- H]].
  apply filter_In in H. destruct H as [H Hprice].
  apply filter_In in H. destruct H as [H Hqty].
  apply filter_In in H. destruct H as [H Hinv].
  apply in_map_iff in H. destruct H as [r0 [<- H]].
  apply filter_In in H. destruct H as [_ Hcid].
  repeat split; try assumption.
  unfold has_customer_id in Hcid. simpl.
  destruct (customer_id r0); simpl; [discriminate | eauto | eauto].
Qed.

(** [pd.to_datetime] turns the date cell into a timestamp and leaves the other
    cells alone. *)
Lemma to_datetime_inv (parse : string -> option Z) (df df' : DataFrame) :
  to_datetime parse df = inr df' ->
  Forall2 (fun r r' => exists t, r' = set_invoice_date (DateTs t) r) df df'.
Proof.
  revert df'. induction df as [|r rest IH]; simpl; intros df' H.
  - injection H as <-. constructor.
  - destruct (to_datetime_cell parse (invoice_date r)) as [d|] eqn:Ed;
      [|discriminate].
    destruct (to_datetime parse rest) as [e|rest'] eqn:Er; [discriminate|].
    injection H as <-. constructor; [|apply IH; reflexivity].
    unfold to_datetime_cell in Ed. destruct (invoice_date r) as [s|t].
    + destruct (parse s) as [t|]; [|discriminate].
      injection Ed as <-. eauto.
    + injection Ed as <-. eauto.
Qed.

Lemma clean_cleaned_rows (parse : string -> option Z) (raw df : DataFrame) :
  clean parse raw = inr df -> Forall cleaned_row df.
Proof.
  unfold clean. intros H. apply to_datetime_inv in H.
  assert (Hl : Forall (fun r =>
                 (exists c, customer_id r = CidInt c) /\
                 not_cancelled r = true /\
                 quantity_positive r = true /\
                 unit_price_positive r = true /\
                 total_price r = Some (line_total r)) (filter_rows raw))
    by (apply Forall_forall; apply filter_rows_inv).
  revert Hl H. generalize (filter_rows raw). intros l Hl H.
  induction H as [|r r' l l' [t ->] _ IH]; constructor.
  - inversion Hl as [|? ? [Hc [Hi [Hq [Hp Ht]]]] _]. subst.
    unfold cleaned_row. repeat split; try assumption. simpl. eauto.
  - apply IH. inversion Hl. assumption.
Qed.

(** A frame of cleaned rows passes through the cleaner unchanged. *)
Lemma clean_fixed (parse : string -> option Z) (df : DataFrame) :
  Forall cleaned_row df -> clean parse df = inr df.
Proof.
  intros H. unfold clean.
  assert (E : filter_rows df = df).
  { unfold filter_rows, add_total_price, drop_cancelled,
      customer_id_astype_int, dropna_customer_id.
    assert (E1 : filter has_customer_id df = df).
    { apply filter_all. eapply Forall_impl; [|exact H].
      intros r [[c Hc] _]. unfold has_customer_id. rewrite Hc. reflexivity. }
    rewrite E1.
    assert (E2 : map (fun r => set_customer_id (astype_int (customer_id r)) r)
                     df = df).
    { apply map_fixed. eapply Forall_impl; [|exact H].
      intros r [[c Hc] _]. destruct r. simpl in *. subst. reflexivity. }
    rewrite E2.
    rewrite (filter_all not_cancelled)
      by (eapply Forall_impl; [|exact H]; intros r Hr; apply Hr).
    rewrite (filter_all quantity_positive)
      by (eapply Forall_impl; [|exact H]; intros r Hr; apply Hr).
    rewrite (filter_all unit_price_positive)
      by (eapply Forall_impl; [|exact H]; intros r Hr; apply Hr).
    apply map_fixed. eapply Forall_impl; [|exact H].
    intros r [_ [_ [_ [_ [Ht _]]]]]. destruct r. simpl in *.
    unfold set_total_price. simpl. rewrite <- Ht. reflexivity. }
  rewrite E. clear E.
  induction H as [|r l [_ [_ [_ [_ [_ [t Ht]]]]]] _ IH]; simpl;
    [reflexivity|].
  rewrite Ht. simpl. rewrite IH. destruct r. simpl in *. subst. reflexivity.
Qed.

Lemma cleaned_row_invariant (r : Row) :
  cleaned_row r -> TransactionLine_inv r.
Proof.
  intros [[c Hc] [Hi [Hq [Hp [Ht _]]]]].
  apply quantity_positive_spec in Hq. destruct Hq as [q [Eq Hq]].
  apply fgt0_pos in Hp. destruct Hp as [p [Ep Hp]].
  exists c, q, p, (Qred (inject_Z q * p)).
  repeat split; try assumption.
  - apply not_cancelled_spec. exact Hi.
  - rewrite Ht. unfold line_total. rewrite Eq, Ep. reflexivity.
  - apply Qred_correct.
Qed.

(** C4.  Every row of the cleaned transaction set satisfies the
    TransactionLine invariant: the customer id is present and an integer, the
    quantity and the unit price are positive, the text of the invoice id has
    no 'C', and [total_price] is the product of quantity and unit price. *)
Theorem cleaned_rows_satisfy_invariant
  (parse : string -> option Z) (raw df : DataFrame) :
  clean parse raw = inr df -> Forall TransactionLine_inv df.
Proof.
  intros H. apply clean_cleaned_rows in H.
  eapply Forall_impl; [|exact H]. apply cleaned_row_invariant.
Qed.

Lemma cleaned_rows_satisfy_invariant_witness :
  clean Sample.parse Sample.raw = inr Sample.cleaned /\
  Forall TransactionLine_inv Sample.cleaned.
Proof.
  split; [reflexivity|].
  apply (cleaned_rows_satisfy_invariant Sample.parse Sample.raw).
  reflexivity.
Defined.

(** C9.  The cleaner is idempotent: cleaning the output of a cleaning run
    returns that same frame, with no row dropped and no cell changed. *)
Theorem clean_idempotent
  (parse : string -> option Z) (raw df : DataFrame) :
  clean parse raw = inr df -> clean parse df = inr df.
Proof.
  intros H. apply clean_fixed. eapply clean_cleaned_rows. exact H.
Qed.

Lemma clean_idempotent_witness :
  clean Sample.parse Sample.raw = inr Sample.cleaned /\
  clean Sample.parse Sample.cleaned = inr Sample.cleaned.
Proof.
  split; [reflexivity|].
  apply (clean_idempotent Sample.parse Sample.raw). reflexivity.
Defined.

(** C10.  A raw row with a customer id survives the cancellation filter of
    line 44 exactly when the text of its invoice id has no uppercase 'C' at
    any position; an id with the marker in the middle is dropped, an id with a
    lowercase 'c' only is kept. *)
Theorem cancellation_filter_matches_uppercase_C_anywhere :
  (forall (df : DataFrame) (r : Row),
      In r df -> has_customer_id r = true ->
      (In (set_customer_id (astype_int (customer_id r)) r)
          (drop_cancelled (customer_id_astype_int (dropna_customer_id df)))
       <-> ~ In "C"%char (chars (astype_str (invoice r))))) /\
  (forall (r : Row) (s1 s2 : string),
      invoice r = InvStr (s1 ++ String "C" s2) -> not_cancelled r = false) /\
  not_cancelled Sample.interior_marker = false /\
  not_cancelled Sample.lowercase_marker = true.
Proof.
  split; [|split; [|split; reflexivity]].
  - intros df r Hin Hcid. split.
    + intros H. apply filter_In in H. destruct H as [_ H].
      apply not_cancelled_spec in H. exact H.
    + intros Hno. apply filter_In. split.
      * unfold customer_id_astype_int, dropna_customer_id.
        apply (in_map (fun r => set_customer_id (astype_int (customer_id r)) r)).
        apply filter_In. split; assumption.
      * apply not_cancelled_spec. exact Hno.
  - intros r s1 s2 E. apply not_true_iff_false. intros H.
    apply not_cancelled_spec in H. apply H. rewrite E. simpl.
    rewrite chars_app. apply in_or_app. right. left. reflexivity.
Qed.

Lemma cancellation_filter_matches_uppercase_C_anywhere_witness :
  In (set_customer_id (astype_int (customer_id Sample.purchase)) Sample.purchase)
     (drop_cancelled (customer_id_astype_int (dropna_customer_id Sample.raw)))
  <-> ~ In "C"%char (chars (astype_str (invoice Sample.purchase))).
Proof.
  apply (proj1 cancellation_filter_matches_uppercase_C_anywhere Sample.raw).
  - left. reflexivity.
  - reflexivity.
Defined.

(** ** Maxima and minima of a column *)

Lemma fold_max_spec (t : Z) (rest : list Z) :
  In (fold_right Z.max t rest) (t :: rest) /\
  forall x, In x (t :: rest) -> x <= fold_right Z.max t rest.
Proof.
  induction rest as [|y rest [IHin IHle]]; simpl.
  - split; [left; reflexivity | intros x [<- | []]; lia].
  - split.
    + destruct (Z.max_spec y (fold_right Z.max t rest)) as [[_ E] | [_ E]];
        rewrite E.
      * destruct IHin as [H | H]; [left; exact H | right; right; exact H].
      * right. left. reflexivity.
    + intros x [<- | [<- | H]].
      * specialize (IHle t (or_introl eq_refl)). lia.
      * lia.
      * specialize (IHle x (or_intror H)). lia.
Qed.

Lemma fold_min_spec (t : Z) (rest : list Z) :
  In (fold_right Z.min t rest) (t :: rest) /\
  forall x, In x (t :: rest) -> fold_right Z.min t rest <= x.
Proof.
  induction rest as [|y rest [IHin IHle]]; simpl.
  - split; [left; reflexivity | intros x [<- | []]; lia].
  - split.
    + destruct (Z.min_spec y (fold_right Z.min t rest)) as [[_ E] | [_ E]];
        rewrite E.
      * right. left. reflexivity.
      * destruct IHin as [H | H]; [left; exact H | right; right; exact H].
    + intros x [<- | [<- | H]].
      * specialize (IHle t (or_introl eq_refl)). lia.
      * lia.
      * specialize (IHle x (or_intror H)). lia.
Qed.

Lemma series_max_spec (col : list Z) (m : Z) :
  series_max col = Some m ->
  In m col /\ forall x, In x col -> x <= m.
Proof.
  destruct col as [|t rest]; simpl; [discriminate|].
  intros H. injection H as <-. apply fold_max_spec.
Qed.

Lemma latest_spec (times : list Z) :
  times <> [] ->
  In (RFM.latest times) times /\ forall x, In x times -> x <= RFM.latest times.
Proof.
  destruct times as [|t rest]; [congruence|]. intros _. apply fold_max_spec.
Qed.

Lemma earliest_spec (times : list Z) :
  times <> [] ->
  In (RFM.earliest times) times /\
  forall x, In x times -> RFM.earliest times <= x.
Proof.
  destruct times as [|t rest]; [congruence|]. intros _. apply fold_min_spec.
Qed.

(** ** The aggregation call *)

Lemma transactions_dates (df : DataFrame) (tx : Transaction) :
  In tx (transactions df) -> In (tx_time tx) (invoice_dates df).
Proof.
  unfold transactions, invoice_dates. intros H.
  apply in_flat_map in H. destruct H as [r [Hr H]].
  apply in_flat_map. exists r. split; [exact Hr|].
  unfold transaction_of_row in H.
  destruct (customer_id r); try contradiction.
  destruct (invoice_date r); try contradiction.
  destruct (total_price r) as [[v|]|]; try contradiction.
  destruct H as [<- | []]. left. reflexivity.
Qed.

Lemma cleaned_invoice_dates (df : DataFrame) :
  Forall cleaned_row df ->
  Forall2 (fun r t => invoice_date r = DateTs t) df (invoice_dates df).
Proof.
  induction 1 as [|r l [_ [_ [_ [_ [_ [t Ht]]]]]] _ IH]; simpl.
  - constructor.
  - rewrite Ht. simpl. constructor; assumption.
Qed.

(** On a cleaned frame the aggregator sees one transaction per row. *)
Lemma transactions_of_cleaned (df : DataFrame) :
  Forall cleaned_row df ->
  Forall2 (fun r tx => transaction_of_row r = Some tx) df (transactions df).
Proof.
  induction 1 as [|r l Hr _ IH]; simpl.
  - constructor.
  - destruct Hr as [[c Hc] [_ [Hq [Hp [Ht [t Hd]]]]]].
    apply quantity_positive_spec in Hq. destruct Hq as [q [Eq _]].
    apply fgt0_pos in Hp. destruct Hp as [p [Ep _]].
    assert (E : transaction_of_row r
                = Some (mkTransaction c t (Qred (inject_Z q * p)))).
    { unfold transaction_of_row. rewrite Hc, Hd, Ht.
      unfold line_total. rewrite Eq, Ep. reflexivity. }
    rewrite E. simpl. constructor; assumption.
Qed.

Lemma in_customers_group (txs : list Transaction) (c : Z) :
  In c (RFM.customers txs) ->
  map tx_time (RFM.purchases_of c txs) <> [] /\
  forall x, In x (map tx_time (RFM.purchases_of c txs)) ->
            In x (map tx_time txs).
Proof.
  unfold RFM.customers, RFM.purchases_of. intros H.
  apply nodup_In in H. apply in_map_iff in H. destruct H as [tx [E Htx]].
  split.
  - intros Hnil.
    assert (Hin : In (tx_time tx)
                     (map tx_time (filter (fun t => tx_customer t =? c) txs))).
    { apply in_map. apply filter_In. split; [exact Htx|].
      apply Z.eqb_eq. exact E. }
    rewrite Hnil in Hin. exact Hin.
  - intros x Hx. apply in_map_iff in Hx. destruct Hx as [t [<- Ht]].
    apply filter_In in Ht. apply in_map. apply Ht.
Qed.

Lemma in_rfm_of (df : DataFrame) (cutoff : Z) (s : CustomerSummary) :
  In s (rfm_of df cutoff) ->
  In (cs_customer_id s) (RFM.customers (transactions df)) /\
  s = RFM.summarise cutoff (cs_customer_id s)
        (RFM.purchases_of (cs_customer_id s) (transactions df)).
Proof.
  unfold rfm_of, RFM.summary_data_from_transaction_data. intros H.
  apply in_map_iff in H. destruct H as [c [<- Hc]]. simpl. auto.
Qed.

(** The scenario of section 8 of the specification, evaluated. *)
Example scenario_summaries :
  RFM.summary_data_from_transaction_data Sample.scenario (11 * day)
  = [mkSummary 1 1 (10 * day) (11 * day) (20 # 1);
     mkSummary 2 0 0 (11 * day) (0 # 1)].
Proof. reflexivity. Qed.

Lemma rfm_stage_Done (strftime : Z -> string) (df : DataFrame)
  (out : list Event) (rfm : list CustomerSummary) :
  rfm_stage strftime df = Done out rfm ->
  exists cutoff,
    observation_period_end df = Some cutoff /\ rfm = rfm_of df cutoff.
Proof.
  unfold rfm_stage, cutoff_stage.
  destruct (observation_period_end df) as [c|]; simpl; intros H.
  - injection H as _ <-. eauto.
  - discriminate.
Qed.

Lemma Forall2_in_left {A B : Type} (R : A -> B -> Prop)
  (l : list A) (l' : list B) (x : A) :
  Forall2 R l l' -> In x l -> exists y, In y l' /\ R x y.
Proof.
  induction 1 as [|a b l l' Hab _ IH]; simpl; [tauto|].
  intros [<- | H].
  - exists b. auto.
  - destruct (IH H) as [y [Hy Hxy]]. exists y. auto.
Qed.

Lemma Forall2_in_right {A B : Type} (R : A -> B -> Prop)
  (l : list A) (l' : list B) (y : B) :
  Forall2 R l l' -> In y l' -> exists x, In x l /\ R x y.
Proof.
  induction 1 as [|a b l l' Hab _ IH]; simpl; [tauto|].
  intros [<- | H].
  - exists a. auto.
  - destruct (IH H) as [x [Hx Hxy]]. exists x. auto.
Qed.

Lemma filter_none {A : Type} (f : A -> bool) (l : list A) :
  (forall x, In x l -> f x = false) -> filter f l = [].
Proof.
  induction l as [|a l IH]; simpl; intros H; [reflexivity|].
  rewrite (H a (or_introl eq_refl)). apply IH. intros x Hx. apply H. auto.
Qed.

Lemma day_positive : 0 < day.
Proof. reflexivity. Qed.

(** C1.  Whenever the run reaches the aggregation, the cutoff it passes is the
    largest invoice timestamp of the cleaned rows plus one day; the one value
    goes to the single aggregation call, and the age of every customer is
    measured against it. *)
Theorem observation_cutoff_is_global_max_plus_one_day
  (parse : string -> option Z) (strftime : Z -> string)
  (raw df : DataFrame) (out : list Event) (rfm : list CustomerSummary) :
  clean parse raw = inr df ->
  rfm_stage strftime df = Done out rfm ->
  exists m,
    (exists r, In r df /\ invoice_date r = DateTs m) /\
    (forall r, In r df -> exists t, invoice_date r = DateTs t /\ t <= m) /\
    observation_period_end df = Some (m + day) /\
    rfm = rfm_of df (m + day) /\
    (forall s, In s rfm ->
       T s = (m + day)
             - RFM.earliest
                 (map tx_time
                    (RFM.purchases_of (cs_customer_id s) (transactions df)))).
Proof.
  intros Hclean Hrun.
  apply clean_cleaned_rows in Hclean. apply cleaned_invoice_dates in Hclean.
  apply rfm_stage_Done in Hrun. destruct Hrun as [cutoff [Hend ->]].
  unfold observation_period_end in Hend.
  destruct (series_max (invoice_dates df)) as [m|] eqn:Hmax; [|discriminate].
  injection Hend as <-. exists m.
  destruct (series_max_spec _ _ Hmax) as [Hin Hle].
  split; [|split; [|split; [|split]]].
  - destruct (Forall2_in_right _ _ _ _ Hclean Hin) as [r [Hr E]]. eauto.
  - intros r Hr.
    destruct (Forall2_in_left _ _ _ _ Hclean Hr) as [t [Ht E]]. eauto.
  - unfold observation_period_end. rewrite Hmax. reflexivity.
  - reflexivity.
  - intros s Hs. apply in_rfm_of in Hs. destruct Hs as [_ ->]. reflexivity.
Qed.

Lemma observation_cutoff_is_global_max_plus_one_day_witness :
  exists m,
    (exists r, In r Sample.cleaned /\ invoice_date r = DateTs m) /\
    (forall r, In r Sample.cleaned ->
               exists t, invoice_date r = DateTs t /\ t <= m) /\
    observation_period_end Sample.cleaned = Some (m + day) /\
    rfm_of Sample.cleaned (Sample.t_last + day)
    = rfm_of Sample.cleaned (m + day) /\
    (forall s, In s (rfm_of Sample.cleaned (Sample.t_last + day)) ->
       T s = (m + day)
             - RFM.earliest
                 (map tx_time
                    (RFM.purchases_of (cs_customer_id s)
                       (transactions Sample.cleaned)))).
Proof.
  apply (observation_cutoff_is_global_max_plus_one_day
           Sample.parse Sample.strftime Sample.raw Sample.cleaned
           (output (rfm_stage Sample.strftime Sample.cleaned))).
  - reflexivity.
  - reflexivity.
Defined.

(** C5.  Every customer summary the aggregation produces in a run has
    recency at most age (T). *)
Theorem recency_le_age
  (strftime : Z -> string) (df : DataFrame)
  (out : list Event) (rfm : list CustomerSummary) :
  rfm_stage strftime df = Done out rfm ->
  forall s, In s rfm -> recency s <= T s.
Proof.
  intros Hrun s Hs.
  apply rfm_stage_Done in Hrun. destruct Hrun as [cutoff [Hend ->]].
  unfold observation_period_end in Hend.
  destruct (series_max (invoice_dates df)) as [m|] eqn:Hmax; [|discriminate].
  injection Hend as <-.
  destruct (series_max_spec _ _ Hmax) as [_ Hle].
  apply in_rfm_of in Hs. destruct Hs as [Hc ->]. simpl.
  destruct (in_customers_group _ _ Hc) as [Hne Hsub].
  destruct (latest_spec _ Hne) as [Hlast _].
  apply Hsub in Hlast. apply in_map_iff in Hlast.
  destruct Hlast as [tx [E Htx]]. apply transactions_dates in Htx.
  rewrite E in Htx. apply Hle in Htx.
  pose proof day_positive. lia.
Qed.

Lemma recency_le_age_witness :
  recency (mkSummary 3 2 (5 * day) (9 * day) (50 # 1))
  <= T (mkSummary 3 2 (5 * day) (9 * day) (50 # 1)).
Proof.
  apply (recency_le_age Sample.strftime Sample.history
           (output (rfm_stage Sample.strftime Sample.history))
           (rfm_of Sample.history (11 * day))).
  - reflexivity.
  - right. right. left. reflexivity.
Defined.

(** C6.  A customer whose cleaned transactions form exactly one purchase
    occasion, at time [t], gets frequency 0, recency 0 and age equal to the
    cutoff minus [t]. *)
Theorem single_occasion_summary
  (df : DataFrame) (cutoff t : Z) (s : CustomerSummary) :
  In s (rfm_of df cutoff) ->
  RFM.occasions (RFM.purchases_of (cs_customer_id s) (transactions df)) = [t] ->
  frequency s = 0 /\ recency s = 0 /\ T s = cutoff - t.
Proof.
  intros Hs Hone. apply in_rfm_of in Hs. destruct Hs as [Hc E].
  set (group := RFM.purchases_of (cs_customer_id s) (transactions df)) in *.
  destruct (in_customers_group _ _ Hc) as [Hne _]. fold group in Hne.
  assert (Hall : forall x, In x (map tx_time group) -> x = t).
  { intros x Hx. apply (nodup_In Z.eq_dec) in Hx.
    unfold RFM.occasions in Hone. rewrite Hone in Hx.
    destruct Hx as [<- | []]. reflexivity. }
  assert (Hfirst : RFM.earliest (map tx_time group) = t)
    by (apply Hall; apply earliest_spec; exact Hne).
  assert (Hlast : RFM.latest (map tx_time group) = t)
    by (apply Hall; apply latest_spec; exact Hne).
  assert (Hrep : RFM.repeat_purchases cutoff group = []).
  { unfold RFM.repeat_purchases. apply filter_none. intros tx Htx.
    rewrite Hfirst, (Hall (tx_time tx) (in_map tx_time _ _ Htx)).
    rewrite Z.ltb_irrefl. reflexivity. }
  rewrite E. unfold RFM.summarise. simpl. rewrite Hrep, Hfirst, Hlast. simpl.
  repeat split; lia.
Qed.

Lemma single_occasion_summary_witness :
  frequency (mkSummary 2 0 0 (11 * day) (0 # 1)) = 0 /\
  recency (mkSummary 2 0 0 (11 * day) (0 # 1)) = 0 /\
  T (mkSummary 2 0 0 (11 * day) (0 # 1)) = 11 * day - 0.
Proof.
  apply (single_occasion_summary Sample.history (11 * day) 0).
  - right. left. reflexivity.
  - reflexivity.
Defined.

(** ** The combiner *)



(** When the Series carries the labels of the selected rows in row order,
    the positional write of line 155 gives every selected row the value
    stored under its own label. *)
Lemma loc_assign_keyed (rows : list Scored) :
  forall (s : Series),
    map fst s
    = map (fun r => cs_customer_id (sc_summary r))
          (filter (fun r => 0 <? frequency (sc_summary r)) rows) ->
    NoDup (map (fun r => cs_customer_id (sc_summary r)) rows) ->
    exists rows',
      loc_assign rows (values s) = Some rows' /\
      map sc_summary rows' = map sc_summary rows /\
      forall r, In r rows' -> 0 < frequency (sc_summary r) ->
                lookup (cs_customer_id (sc_summary r)) s = Some (sc_monetary r).
Proof.
  induction rows as [|a rows IH]; intros s Hidx Hnd.
  - destruct s; [|discriminate]. exists []. simpl. repeat split. tauto.
  - simpl in Hidx. unfold values in *.
    inversion Hnd as [|? ? Hnotin Hnd']. subst.
    destruct (0 <? frequency (sc_summary a)) eqn:Hmask.
    + destruct s as [|[k v] s]; [discriminate|].
      simpl in Hidx. injection Hidx as Hk Hidx.
      destruct (IH s Hidx Hnd') as [rest [Hrest [Hsum Hval]]].
      exists (mkScored (sc_summary a) (sc_purchases a) v :: rest).
      simpl. rewrite Hmask, Hrest. simpl.
      split; [reflexivity|]. split; [rewrite Hsum; reflexivity|].
      intros r [<- | Hr] Hfreq.
      * simpl. rewrite Hk, Z.eqb_refl. reflexivity.
      * assert (Hne : k <> cs_customer_id (sc_summary r)).
        { intros E. apply Hnotin. rewrite <- Hk, E.
          rewrite <- (map_map sc_summary cs_customer_id), <- Hsum, map_map.
          apply (in_map (fun x => cs_customer_id (sc_summary x))). exact Hr. }
        apply Z.eqb_neq in Hne. rewrite Hne. apply Hval; assumption.
    + destruct (IH s Hidx Hnd') as [rest [Hrest [Hsum Hval]]].
      exists (a :: rest). simpl. rewrite Hmask, Hrest. simpl.
      split; [reflexivity|]. split; [rewrite Hsum; reflexivity|].
      intros r [<- | Hr] Hfreq.
      * apply Z.ltb_lt in Hfreq. congruence.
      * apply Hval; assumption.
Qed.

(** Line 155 is positional: read back in row order, the selected rows hold
    exactly the values that were written, and no summary moves. *)
Lemma loc_assign_positional (rows : list Scored) :
  forall (vals : list float64) (rows' : list Scored),
    loc_assign rows vals = Some rows' ->
    map sc_monetary
        (filter (fun r => 0 <? frequency (sc_summary r)) rows') = vals /\
    map sc_summary rows' = map sc_summary rows.
Proof.
  induction rows as [|a rows IH]; intros vals rows' H.
  - simpl in H. destruct vals; [|discriminate].
    injection H as <-. split; reflexivity.
  - simpl in H. destruct (0 <? frequency (sc_summary a)) eqn:Hmask.
    + destruct vals as [|v vals]; [discriminate|].
      destruct (loc_assign rows vals) as [rest|] eqn:Hrest; [|discriminate].
      simpl in H. injection H as <-.
      destruct (IH vals rest Hrest) as [Hv Hs].
      simpl. rewrite Hmask. simpl. rewrite Hv, Hs. split; reflexivity.
    + destruct (loc_assign rows vals) as [rest|] eqn:Hrest; [|discriminate].
      simpl in H. injection H as <-.
      destruct (IH vals rest Hrest) as [Hv Hs].
      simpl. rewrite Hmask. rewrite Hv, Hs. split; reflexivity.
Qed.

(** The write of line 155 goes through exactly when there is one value per
    selected row. *)
Lemma loc_assign_defined (rows : list Scored) :
  forall (vals : list float64),
    loc_assign rows vals <> None <->
    List.length vals
    = List.length (filter (fun r => 0 <? frequency (sc_summary r)) rows).
Proof.
  induction rows as [|a rows IH]; intros vals.
  - simpl. destruct vals; simpl; split; congruence.
  - simpl. destruct (0 <? frequency (sc_summary a)) eqn:Hmask.
    + destruct vals as [|v vals]; simpl; [split; congruence|].
      specialize (IH vals).
      destruct (loc_assign rows vals); simpl.
      * split; [intros _; f_equal; apply IH; congruence | congruence].
      * split; [congruence|].
        intros E. injection E as E. apply IH in E. congruence.
    + specialize (IH vals).
      destruct (loc_assign rows vals); simpl.
      * split; [intros _; apply IH; congruence | congruence].
      * split; [congruence|]. intros E. apply IH in E. congruence.
Qed.

Section CombinerFacts.

Variable BGModel : Type.
Variable bg_predict : BGModel -> Q -> Z -> Z -> Z -> float64.
Variable GGModel : Type.
Variable profit : GGModel -> list (Z * (Z * Q)) -> Series.

Lemma initial_scores_summary (bgf : BGModel) (rfm : list CustomerSummary) :
  map sc_summary (initial_scores BGModel bg_predict bgf rfm) = rfm.
Proof.
  unfold initial_scores. rewrite map_map. simpl. apply map_id.
Qed.


Lemma initial_scores_selected (bgf : BGModel) (rfm : list CustomerSummary) :
  map (fun r => cs_customer_id (sc_summary r))
      (filter (fun r => 0 <? frequency (sc_summary r))
              (initial_scores BGModel bg_predict bgf rfm))
  = map cs_customer_id (repeat_customers rfm).
Proof.
  unfold initial_scores, repeat_customers.
  induction rfm as [|s rfm IH]; simpl; [reflexivity|].
  destruct (0 <? frequency s); simpl; rewrite IH; reflexivity.
Qed.

Lemma combine_inr (bgf : BGModel) (ggf : GGModel)
  (rfm : list CustomerSummary) (table : list PredictionRecord) :
  combine BGModel bg_predict GGModel profit bgf ggf rfm = inr table ->
  exists rows,
    loc_assign (initial_scores BGModel bg_predict bgf rfm)
               (values (merged_monetary GGModel profit ggf rfm)) = Some rows /\
    table = map add_predicted_clv rows.
Proof.
  unfold combine. intros H.
  destruct (loc_assign _ _) as [rows|]; [|discriminate].
  injection H as <-. eauto.
Qed.

End CombinerFacts.

Lemma rfm_of_NoDup (df : DataFrame) (cutoff : Z) :
  NoDup (map cs_customer_id (rfm_of df cutoff)).
Proof.
  unfold rfm_of, RFM.summary_data_from_transaction_data.
  rewrite map_map. simpl. rewrite map_id. apply NoDup_nodup.
Qed.




(** X19.  Line 155 writes the values of the returned Series by position
    into the rows with frequency > 0.  When the Series lists the repeat
    customers in the order of the subset the model was given, the write
    succeeds (no row-count mismatch), the table keeps one row per summary,
    and every customer with frequency > 0 holds the value the Series carries
    under that customer's own id. *)
Theorem monetary_predictions_matched_when_order_kept
  (BGModel : Type) (bg_predict : BGModel -> Q -> Z -> Z -> Z -> float64)
  (GGModel : Type) (profit : GGModel -> list (Z * (Z * Q)) -> Series)
  (bgf : BGModel) (ggf : GGModel) (df : DataFrame) (cutoff : Z) :
  map fst (merged_monetary GGModel profit ggf (rfm_of df cutoff))
  = map cs_customer_id (repeat_customers (rfm_of df cutoff)) ->
  exists table,
    combine BGModel bg_predict GGModel profit bgf ggf (rfm_of df cutoff)
    = inr table /\
    map summary table = rfm_of df cutoff /\
    map predicted_monetary_value
        (filter (fun r => 0 <? frequency (summary r)) table)
    = values (merged_monetary GGModel profit ggf (rfm_of df cutoff)) /\
    matched_by_customer_id
      (merged_monetary GGModel profit ggf (rfm_of df cutoff)) table.
Proof.
  intros Hidx.
  destruct (loc_assign_keyed
              (initial_scores BGModel bg_predict bgf (rfm_of df cutoff))
              (merged_monetary GGModel profit ggf (rfm_of df cutoff)))
    as [rows [Hrows [Hsum Hval]]].
  - rewrite initial_scores_selected. exact Hidx.
  - rewrite <- (map_map sc_summary cs_customer_id), initial_scores_summary.
    apply rfm_of_NoDup.
  - exists (map add_predicted_clv rows). split; [|split; [|split]].
    + unfold combine. rewrite Hrows. reflexivity.
    + transitivity (map sc_summary rows).
      * rewrite map_map. apply map_ext. reflexivity.
      * rewrite Hsum. apply initial_scores_summary.
    + destruct (loc_assign_positional _ _ _ Hrows) as [Hpos _].
      rewrite <- Hpos. clear. induction rows as [|a rows IH]; simpl.
      * reflexivity.
      * destruct (0 <? frequency (sc_summary a)); simpl; rewrite IH;
          reflexivity.
    + intros r Hr Hfreq. apply in_map_iff in Hr.
      destruct Hr as [r' [<- Hr']]. simpl in *. apply Hval; assumption.
Qed.

Lemma monetary_predictions_matched_when_order_kept_witness :
  exists table,
    combine unit Sample.bg_predict unit Sample.profit_in_order tt tt
            (rfm_of Sample.history (11 * day)) = inr table /\
    map summary table = rfm_of Sample.history (11 * day) /\
    map predicted_monetary_value
        (filter (fun r => 0 <? frequency (summary r)) table)
    = values (merged_monetary unit Sample.profit_in_order tt
                              (rfm_of Sample.history (11 * day))) /\
    matched_by_customer_id
      (merged_monetary unit Sample.profit_in_order tt
                       (rfm_of Sample.history (11 * day))) table.
Proof.
  apply (monetary_predictions_matched_when_order_kept
           unit Sample.bg_predict unit Sample.profit_in_order tt tt
           Sample.history (11 * day)).
  reflexivity.
Defined.


(** ** The script *)

(** C7, on the code.  When [pd.read_excel] raises, the script prints its
    message and calls [exit()] without a status before anything else runs;
    the process status is 0. *)
Theorem load_failure_exits_with_status_zero
  (parse : string -> option Z) (strftime : Z -> string)
  (BGModel : Type) (bg_fit : list Z -> list Z -> list Z -> Exn + BGModel)
  (bg_predict : BGModel -> Q -> Z -> Z -> Z -> float64)
  (GGModel : Type) (gg_fit : list Z -> list Q -> Exn + GGModel)
  (profit : GGModel -> list (Z * (Z * Q)) -> Series) :
  main parse strftime BGModel bg_fit bg_predict GGModel gg_fit profit
       FileNotFoundError
  = Stop [Printed "--- 1. Loading and Preprocessing Data ---";
          Printed "Error: 'Online Retail.xlsx' not found. Please ensure the dataset is in the same directory."]
         (SystemExit None) /\
  status (main parse strftime BGModel bg_fit bg_predict GGModel gg_fit profit
               FileNotFoundError) = 0 /\
  forall e : string,
    main parse strftime BGModel bg_fit bg_predict GGModel gg_fit profit
         (OtherException e)
    = Stop [Printed "--- 1. Loading and Preprocessing Data ---";
            Printed ("An error occurred while loading the data: " ++ e)]
           (SystemExit None) /\
    status (main parse strftime BGModel bg_fit bg_predict GGModel gg_fit profit
                 (OtherException e)) = 0.
Proof.
  split; [reflexivity|]. split; [reflexivity|].
  intros e. split; reflexivity.
Qed.

(** C8, as the script does it.  When cleaning leaves no row, the run stops at
    line 65 on the uncaught ValueError of formatting a missing maximum: after
    the row counts nothing more is printed, no model is fitted, no file is
    written, and the process status is 1. *)
Theorem empty_cleaned_set_stops_before_export
  (parse : string -> option Z) (strftime : Z -> string)
  (BGModel : Type) (bg_fit : list Z -> list Z -> list Z -> Exn + BGModel)
  (bg_predict : BGModel -> Q -> Z -> Z -> Z -> float64)
  (GGModel : Type) (gg_fit : list Z -> list Q -> Exn + GGModel)
  (profit : GGModel -> list (Z * (Z * Q)) -> Series)
  (raw : DataFrame) :
  clean parse raw = inr [] ->
  main parse strftime BGModel bg_fit bg_predict GGModel gg_fit profit
       (Loaded raw)
  = Stop [Printed "--- 1. Loading and Preprocessing Data ---";
          Printed ("Successfully loaded 'Online Retail.xlsx'. Initial rows: "
                 ++ str_of_nat (List.length raw));
          Printed "Data after cleaning: 0 rows.";
          Printed (nl ++ "--- 2. Performing RFM Feature Engineering ---")]
         (Uncaught "ValueError"%string) /\
  filter is_write
         (output (main parse strftime BGModel bg_fit bg_predict GGModel gg_fit
                       profit (Loaded raw))) = [] /\
  status (main parse strftime BGModel bg_fit bg_predict GGModel gg_fit profit
               (Loaded raw)) = 1.
Proof.
  intros Hclean.
  assert (E : main parse strftime BGModel bg_fit bg_predict GGModel gg_fit
                   profit (Loaded raw)
              = Stop [Printed "--- 1. Loading and Preprocessing Data ---";
                      Printed ("Successfully loaded 'Online Retail.xlsx'. Initial rows: "
                             ++ str_of_nat (List.length raw));
                      Printed "Data after cleaning: 0 rows.";
                      Printed (nl ++ "--- 2. Performing RFM Feature Engineering ---")]
                     (Uncaught "ValueError"%string)).
  { unfold main, load. simpl. rewrite Hclean. reflexivity. }
  rewrite E. repeat split.
Qed.

Lemma empty_cleaned_set_stops_before_export_witness :
  filter is_write
         (output (main Sample.parse Sample.strftime unit Sample.bg_fit
                       Sample.bg_predict unit Sample.gg_fit
                       Sample.profit_in_order (Loaded [Sample.returned]))) = [] /\
  status (main Sample.parse Sample.strftime unit Sample.bg_fit
               Sample.bg_predict unit Sample.gg_fit
               Sample.profit_in_order (Loaded [Sample.returned])) = 1.
Proof.
  apply (empty_cleaned_set_stops_before_export
           Sample.parse Sample.strftime unit Sample.bg_fit
           Sample.bg_predict unit Sample.gg_fit Sample.profit_in_order
           [Sample.returned]).
  reflexivity.
Defined.

(** C8, as stated, fails: a frame whose only row has quantity 0 is cleaned to
    nothing, and the run then ends on a ValueError at line 65; no SchemaError
    and no message about an empty result is produced. *)
Lemma empty_cleaned_set_is_not_reported :
  clean Sample.parse [Sample.returned] = inr [] /\
  main Sample.parse Sample.strftime unit Sample.bg_fit Sample.bg_predict
       unit Sample.gg_fit Sample.profit_in_order (Loaded [Sample.returned])
  = Stop [Printed "--- 1. Loading and Preprocessing Data ---";
          Printed "Successfully loaded 'Online Retail.xlsx'. Initial rows: 1";
          Printed "Data after cleaning: 0 rows.";
          Printed (nl ++ "--- 2. Performing RFM Feature Engineering ---")]
         (Uncaught "ValueError"%string) /\
  ~ ends_with "SchemaError"%string
      (main Sample.parse Sample.strftime unit Sample.bg_fit Sample.bg_predict
            unit Sample.gg_fit Sample.profit_in_order
            (Loaded [Sample.returned])).
Proof.
  split; [reflexivity|]. split; [reflexivity|].
  intros [out H]. vm_compute in H. discriminate H.
Qed.

(** * Further properties of the script *)

(** ** The cleaner, lines 39-55 *)

Lemma filter_and {A : Type} (p q : A -> bool) (l : list A) :
  filter p (filter q l) = filter (fun x => q x && p x) l.
Proof.
  induction l as [|a l IH]; simpl; [reflexivity|].
  destruct (q a); simpl; [destruct (p a)|]; rewrite IH; reflexivity.
Qed.

Lemma Forall2_map_left {A B C : Type} (R : B -> C -> Prop) (f : A -> B)
  (l : list A) (l' : list C) :
  Forall2 R (map f l) l' <-> Forall2 (fun x y => R (f x) y) l l'.
Proof.
  revert l'. induction l as [|a l IH]; intros l'; simpl.
  - split; intros H; inversion H; constructor.
  - split; intros H; inversion H; subst; constructor;
      try assumption; apply IH; assumption.
Qed.

(** Lines 40-52 keep the rows that pass the four tests, in order, with the
    customer id made an integer and the total added. *)
Lemma filter_rows_one_pass (raw : DataFrame) :
  filter_rows raw
  = map (fun r => set_total_price (line_total r)
                    (set_customer_id (astype_int (customer_id r)) r))
        (filter survives raw).
Proof.
  unfold filter_rows, add_total_price, drop_cancelled,
    customer_id_astype_int, dropna_customer_id.
  rewrite !filter_map_swap, !filter_and, map_map.
  rewrite (filter_ext _ survives).
  - apply map_ext. intros r. reflexivity.
  - intros r. unfold survives. rewrite !andb_assoc. reflexivity.
Qed.

Lemma to_datetime_cell_value (parse : string -> option Z) (d : DateCell) :
  to_datetime_cell parse d = option_map DateTs (date_value parse d).
Proof. destruct d; reflexivity. Qed.

Lemma to_datetime_succeeds (parse : string -> option Z) (l l' : DataFrame) :
  to_datetime parse l = inr l' <->
  Forall2 (fun r r' => exists t,
             date_value parse (invoice_date r) = Some t /\
             r' = set_invoice_date (DateTs t) r) l l'.
Proof.
  revert l'. induction l as [|r l IH]; intros l'; simpl.
  - split.
    + intros H. injection H as <-. constructor.
    + intros H. inversion H. reflexivity.
  - rewrite to_datetime_cell_value.
    destruct (date_value parse (invoice_date r)) as [t|] eqn:Ed; simpl.
    + destruct (to_datetime parse l) as [e|rest] eqn:Er.
      * split; [discriminate|]. intros H. inversion H; subst.
        match goal with
        | HF : Forall2 _ l _ |- _ => apply IH in HF; discriminate HF
        end.
      * split.
        -- intros H. injection H as <-. constructor.
           ++ exists t. auto.
           ++ apply IH. reflexivity.
        -- intros H. inversion H as [|? ? ? ? [t' [Et ->]] Hrest]; subst.
           apply IH in Hrest. injection Hrest as ->.
           rewrite Ed in Et. injection Et as ->. reflexivity.
    + split; [discriminate|]. intros H.
      inversion H as [|? ? ? ? [t' [Et _]] _]; subst.
      rewrite Ed in Et. discriminate Et.
Qed.


Lemma clean_one_pass (parse : string -> option Z) (raw df : DataFrame) :
  clean parse raw = inr df ->
  Forall2 (fun r0 r => exists t,
             date_value parse (invoice_date r0) = Some t /\
             r = cleaned_form t r0)
          (filter survives raw) df.
Proof.
  unfold clean. rewrite filter_rows_one_pass. intros H.
  apply to_datetime_succeeds in H. apply Forall2_map_left in H. exact H.
Qed.

(** X1.  When cleaning succeeds, the cleaned frame lists, in their original
    order, exactly the raw rows that pass the four tests (customer id
    present, no 'C' in the invoice text, quantity > 0, unit price > 0), each
    with its id made an integer, its total added and its date cell a
    timestamp, the same timestamp if it already was one; no other cell
    changes. *)
Theorem cleaning_is_one_pass
  (parse : string -> option Z) (raw df : DataFrame) :
  clean parse raw = inr df ->
  Forall2 (fun r0 r => exists t,
             r = cleaned_form t r0 /\
             (forall t0, invoice_date r0 = DateTs t0 -> t = t0))
          (filter survives raw) df.
Proof.
  intros H. apply clean_one_pass in H.
  eapply Forall2_impl; [|exact H].
  intros r0 r [t [Ht ->]]. exists t. split; [reflexivity|].
  intros t0 E. rewrite E in Ht. simpl in Ht. congruence.
Qed.

Lemma cleaning_is_one_pass_witness :
  Forall2 (fun r0 r => exists t,
             r = cleaned_form t r0 /\
             (forall t0, invoice_date r0 = DateTs t0 -> t = t0))
          (filter survives Sample.raw) Sample.cleaned.
Proof.
  apply (cleaning_is_one_pass Sample.parse Sample.raw Sample.cleaned).
  reflexivity.
Defined.

(** X2.  The number of rows after cleaning is the number of raw rows that
    pass the four tests; it never exceeds the initial number of rows. *)
Theorem cleaned_row_count
  (parse : string -> option Z) (raw df : DataFrame) :
  clean parse raw = inr df ->
  List.length df = List.length (filter survives raw) /\
  (List.length df <= List.length raw)%nat.
Proof.
  intros H. apply clean_one_pass in H. apply Forall2_length in H.
  split; [symmetry; exact H|].
  rewrite <- H. apply filter_length_le.
Qed.

Lemma cleaned_row_count_witness :
  List.length Sample.cleaned = List.length (filter survives Sample.raw) /\
  (List.length Sample.cleaned <= List.length Sample.raw)%nat.
Proof.
  apply (cleaned_row_count Sample.parse). reflexivity.
Defined.



(** X4.  A row whose invoice number is an integer cell, or is missing, is
    never removed as a cancellation by line 44. *)
Theorem integer_and_missing_invoices_are_kept (df : DataFrame) (r : Row) :
  In r df ->
  (exists n, invoice r = InvInt n) \/ invoice r = InvMissing ->
  In r (drop_cancelled df).
Proof.
  intros Hin H. apply filter_In. split; [exact Hin|].
  destruct H as [[n E] | E].
  - eapply integer_invoice_not_cancelled. exact E.
  - unfold not_cancelled. rewrite E. reflexivity.
Qed.

Lemma integer_and_missing_invoices_are_kept_witness :
  In Sample.purchase (drop_cancelled Sample.raw).
Proof.
  apply integer_and_missing_invoices_are_kept.
  - left. reflexivity.
  - left. exists 536365. reflexivity.
Defined.

(** X5.  Every cleaned row carries a strictly positive [total_price]. *)
Theorem cleaned_totals_are_positive
  (parse : string -> option Z) (raw df : DataFrame) (r : Row) :
  clean parse raw = inr df -> In r df ->
  exists tp, total_price r = Some (Fin tp) /\ (0 < tp)%Q.
Proof.
  intros H Hin. apply clean_cleaned_rows in H.
  rewrite Forall_forall in H. apply H in Hin.
  destruct (cleaned_row_invariant r Hin)
    as [c [q [p [tp [_ [_ [Hq [_ [Hp [_ [Ht Htp]]]]]]]]]]].
  exists tp. split; [exact Ht|].
  rewrite Htp. apply Qmult_lt_0_compat; [|exact Hp].
  unfold Qlt. simpl. lia.
Qed.

Lemma cleaned_totals_are_positive_witness :
  exists tp,
    total_price (cleaned_form Sample.t_last Sample.repeat_purchase)
    = Some (Fin tp) /\ (0 < tp)%Q.
Proof.
  apply (cleaned_totals_are_positive Sample.parse Sample.raw Sample.cleaned).
  - reflexivity.
  - right. left. reflexivity.
Defined.





(** ** The cutoff and the aggregation call, lines 62-78 *)

Lemma series_max_unique (col col' : list Z) :
  (forall x, In x col <-> In x col') ->
  series_max col = series_max col'.
Proof.
  intros H.
  destruct (series_max col) as [m|] eqn:E; destruct (series_max col') as [m'|] eqn:E'.
  - destruct (series_max_spec _ _ E) as [Hin Hle].
    destruct (series_max_spec _ _ E') as [Hin' Hle'].
    f_equal. apply Z.le_antisymm.
    + apply Hle'. apply H. exact Hin.
    + apply Hle. apply H. exact Hin'.
  - destruct (series_max_spec _ _ E) as [Hin _]. apply H in Hin.
    destruct col'; [contradiction | discriminate].
  - destruct (series_max_spec _ _ E') as [Hin _]. apply H in Hin.
    destruct col; [contradiction | discriminate].
  - reflexivity.
Qed.

(** X7.  The observation cutoff does not depend on the order of the rows:
    two frames that are permutations of each other get the same cutoff
    (or both none). *)
Theorem cutoff_ignores_row_order (df df' : DataFrame) :
  Permutation df df' ->
  observation_period_end df = observation_period_end df'.
Proof.
  intros H. unfold observation_period_end. f_equal.
  apply series_max_unique. intros x.
  assert (P : Permutation (invoice_dates df) (invoice_dates df'))
    by (unfold invoice_dates; apply Permutation_flat_map; exact H).
  split; apply Permutation_in; [exact P | symmetry; exact P].
Qed.

Lemma cutoff_ignores_row_order_witness :
  observation_period_end Sample.history
  = observation_period_end (rev Sample.history).
Proof.
  apply cutoff_ignores_row_order. apply Permutation_rev.
Defined.

(** X8.  Every cleaned row reaches the cutoff and the aggregation call: the
    call of lines 72-78 receives one transaction per cleaned row, in row
    order, carrying that row's integer customer id, timestamp and total
    price, and the maximum of line 64 ranges over the same timestamps. *)
Theorem aggregator_receives_every_cleaned_row
  (parse : string -> option Z) (raw df : DataFrame) :
  clean parse raw = inr df ->
  Forall2 (fun r tx =>
             customer_id r = CidInt (tx_customer tx) /\
             invoice_date r = DateTs (tx_time tx) /\
             total_price r = Some (Fin (tx_value tx)))
          df (transactions df) /\
  invoice_dates df = map tx_time (transactions df).
Proof.
  intros H. apply clean_cleaned_rows in H.
  pose proof (transactions_of_cleaned df H) as Htx.
  split.
  - eapply Forall2_impl; [|exact Htx]. intros r tx E.
    unfold transaction_of_row in E.
    destruct (customer_id r); try discriminate.
    destruct (invoice_date r); try discriminate.
    destruct (total_price r) as [[v|]|]; try discriminate.
    injection E as <-. simpl. auto.
  - clear Htx. induction H as [|r l Hr _ IH]; simpl; [reflexivity|].
    destruct Hr as [[c Hc] [_ [Hq [Hp [Ht [t Hd]]]]]].
    apply quantity_positive_spec in Hq. destruct Hq as [q [Eq _]].
    apply fgt0_pos in Hp. destruct Hp as [p [Ep _]].
    unfold transaction_of_row. rewrite Hc, Hd, Ht.
    unfold line_total. rewrite Eq, Ep. simpl. rewrite IH. reflexivity.
Qed.

Lemma aggregator_receives_every_cleaned_row_witness :
  Forall2 (fun r tx =>
             customer_id r = CidInt (tx_customer tx) /\
             invoice_date r = DateTs (tx_time tx) /\
             total_price r = Some (Fin (tx_value tx)))
          Sample.cleaned (transactions Sample.cleaned) /\
  invoice_dates Sample.cleaned = map tx_time (transactions Sample.cleaned).
Proof.
  apply (aggregator_receives_every_cleaned_row Sample.parse Sample.raw).
  reflexivity.
Defined.

(** ** The combiner, lines 119-160 *)

(** Line 155 changes no summary and no predicted number of purchases. *)
Lemma loc_assign_keeps (rows : list Scored) :
  forall (vals : list float64) (rows' : list Scored),
    loc_assign rows vals = Some rows' ->
    Forall2 (fun a b => sc_summary b = sc_summary a /\
                        sc_purchases b = sc_purchases a) rows rows'.
Proof.
  induction rows as [|a rows IH]; intros vals rows' H.
  - simpl in H. destruct vals; [|discriminate]. injection H as <-. constructor.
  - simpl in H. destruct (0 <? frequency (sc_summary a)).
    + destruct vals as [|v vals]; [discriminate|].
      destruct (loc_assign rows vals) as [rest|] eqn:Hrest; [|discriminate].
      simpl in H. injection H as <-. constructor; [auto | eapply IH; eauto].
    + destruct (loc_assign rows vals) as [rest|] eqn:Hrest; [|discriminate].
      simpl in H. injection H as <-. constructor; [auto | eapply IH; eauto].
Qed.

(** Writing, for every selected row, a value computed from that row. *)
Lemma loc_assign_rowwise (h : Scored -> float64) (rows : list Scored) :
  loc_assign rows
    (map h (filter (fun r => 0 <? frequency (sc_summary r)) rows))
  = Some (map (fun r => if 0 <? frequency (sc_summary r)
                        then mkScored (sc_summary r) (sc_purchases r) (h r)
                        else r) rows).
Proof.
  induction rows as [|a rows IH]; simpl; [reflexivity|].
  destruct (0 <? frequency (sc_summary a)); simpl; rewrite IH; reflexivity.
Qed.

Section CombinerMore.

Variable BGModel : Type.
Variable bg_predict : BGModel -> Q -> Z -> Z -> Z -> float64.
Variable GGModel : Type.
Variable profit : GGModel -> list (Z * (Z * Q)) -> Series.

(** X9.  Whenever the combiner succeeds, the final table has exactly the
    summaries of the RFM table, in the same order; every record carries the
    purchase model's prediction for its own frequency, recency and T over
    182.625 days, and its predicted_clv is the product of its two
    predictions. *)
Theorem combine_keeps_every_customer
  (bgf : BGModel) (ggf : GGModel)
  (rfm : list CustomerSummary) (table : list PredictionRecord) :
  combine BGModel bg_predict GGModel profit bgf ggf rfm = inr table ->
  map summary table = rfm /\
  (days_in_prediction_period == 1461 # 8)%Q /\
  Forall (fun r =>
            predicted_purchases r
            = bg_predict bgf days_in_prediction_period (frequency (summary r))
                         (recency (summary r)) (T (summary r)) /\
            predicted_clv r
            = fmul (predicted_purchases r) (predicted_monetary_value r))
         table.
Proof.
  intros H. apply combine_inr in H. destruct H as [rows [Hrows ->]].
  pose proof (loc_assign_keeps _ _ _ Hrows) as Hkeep.
  split; [|split; [reflexivity|]].
  - destruct (loc_assign_positional _ _ _ Hrows) as [_ Hsum].
    transitivity (map sc_summary rows).
    + rewrite map_map. apply map_ext. reflexivity.
    + rewrite Hsum. apply initial_scores_summary.
  - apply Forall_forall. intros r Hr. apply in_map_iff in Hr.
    destruct Hr as [b [<- Hb]]. simpl. split; [|reflexivity].
    destruct (Forall2_in_right _ _ _ _ Hkeep Hb) as [a [Ha [Es Ep]]].
    rewrite Es, Ep. unfold initial_scores in Ha. apply in_map_iff in Ha.
    destruct Ha as [s [<- _]]. reflexivity.
Qed.

End CombinerMore.

Section CombinerOrder.

Variable BGModel : Type.
Variable bg_predict : BGModel -> Q -> Z -> Z -> Z -> float64.
Variable GGModel : Type.
Variable profit : GGModel -> list (Z * (Z * Q)) -> Series.

Lemma selected_count (bgf : BGModel) (rfm : list CustomerSummary) :
  List.length (filter (fun r => 0 <? frequency (sc_summary r))
                      (initial_scores BGModel bg_predict bgf rfm))
  = List.length (repeat_customers rfm).
Proof.
  pose proof (initial_scores_selected BGModel bg_predict bgf rfm) as H.
  apply (f_equal (@List.length Z)) in H.
  rewrite !length_map in H. exact H.
Qed.

(** X10.  When the monetary model returns one value per repeat customer, the
    combiner succeeds and line 155 is a positional write: read in table
    order, the predictions of the customers with frequency > 0 are exactly
    the returned values in the order they were returned, whatever their
    labels. *)
Theorem combine_writes_by_position
  (bgf : BGModel) (ggf : GGModel) (rfm : list CustomerSummary) :
  List.length (merged_monetary GGModel profit ggf rfm)
  = List.length (repeat_customers rfm) ->
  exists table,
    combine BGModel bg_predict GGModel profit bgf ggf rfm = inr table /\
    map predicted_monetary_value
        (filter (fun r => 0 <? frequency (summary r)) table)
    = values (merged_monetary GGModel profit ggf rfm).
Proof.
  intros Hlen. unfold combine.
  destruct (loc_assign (initial_scores BGModel bg_predict bgf rfm)
                       (values (merged_monetary GGModel profit ggf rfm)))
    as [rows|] eqn:Hrows.
  - exists (map add_predicted_clv rows). split; [reflexivity|].
    destruct (loc_assign_positional _ _ _ Hrows) as [Hpos _].
    rewrite <- Hpos. clear. induction rows as [|a rows IH]; simpl.
    + reflexivity.
    + destruct (0 <? frequency (sc_summary a)); simpl; rewrite IH;
        reflexivity.
  - exfalso. revert Hrows. apply loc_assign_defined.
    unfold values. rewrite length_map, selected_count. exact Hlen.
Qed.

(** X11.  With a monetary model that scores each row from that row's own
    frequency and monetary_value (as an elementwise predictor does), the
    combiner always succeeds and the final table is known in closed form:
    a repeat customer gets the model's value for its own pair, any other
    customer gets 0. *)
Theorem elementwise_model_scores_each_customer
  (score : GGModel -> Z -> Q -> float64)
  (bgf : BGModel) (ggf : GGModel) (rfm : list CustomerSummary) :
  (forall inputs,
      profit ggf inputs
      = map (fun x => (fst x, score ggf (fst (snd x)) (snd (snd x)))) inputs) ->
  combine BGModel bg_predict GGModel profit bgf ggf rfm
  = inr (map (fun s =>
                mkPrediction s
                  (bg_predict bgf days_in_prediction_period
                              (frequency s) (recency s) (T s))
                  (if 0 <? frequency s
                   then score ggf (frequency s) (monetary_value s)
                   else Fin 0)
                  (fmul (bg_predict bgf days_in_prediction_period
                                    (frequency s) (recency s) (T s))
                        (if 0 <? frequency s
                         then score ggf (frequency s) (monetary_value s)
                         else Fin 0)))
             rfm).
Proof.
  intros Hel. unfold combine, merged_monetary. rewrite Hel.
  assert (E : values
                (map (fun x => (fst x, score ggf (fst (snd x)) (snd (snd x))))
                     (monetary_inputs (repeat_customers rfm)))
              = map (fun r => score ggf (frequency (sc_summary r))
                                    (monetary_value (sc_summary r)))
                    (filter (fun r => 0 <? frequency (sc_summary r))
                            (initial_scores BGModel bg_predict bgf rfm))).
  { unfold values, monetary_inputs, repeat_customers, initial_scores.
    rewrite !map_map. simpl.
    induction rfm as [|s rfm IH]; simpl; [reflexivity|].
    destruct (0 <? frequency s); simpl; rewrite IH; reflexivity. }
  rewrite E, loc_assign_rowwise. f_equal.
  unfold initial_scores. rewrite !map_map. apply map_ext. intros s. simpl.
  destruct (0 <? frequency s); reflexivity.
Qed.

End CombinerOrder.

Lemma combine_keeps_every_customer_witness :
  map summary Sample.assigned = rfm_of Sample.history (11 * day).
Proof.
  apply (combine_keeps_every_customer
           unit Sample.bg_predict unit Sample.profit_in_order tt tt
           (rfm_of Sample.history (11 * day)) Sample.assigned).
  reflexivity.
Defined.

Lemma combine_writes_by_position_witness :
  exists table,
    combine unit Sample.bg_predict unit Sample.profit_reordered tt tt
            (rfm_of Sample.history (11 * day)) = inr table /\
    map predicted_monetary_value
        (filter (fun r => 0 <? frequency (summary r)) table)
    = values (merged_monetary unit Sample.profit_reordered tt
                              (rfm_of Sample.history (11 * day))).
Proof.
  apply (combine_writes_by_position unit Sample.bg_predict unit
           Sample.profit_reordered tt tt (rfm_of Sample.history (11 * day))).
  reflexivity.
Defined.

Lemma elementwise_model_scores_each_customer_witness :
  combine unit Sample.bg_predict unit Sample.profit_in_order tt tt
          (rfm_of Sample.history (11 * day))
  = inr Sample.assigned.
Proof.
  rewrite (elementwise_model_scores_each_customer
             unit Sample.bg_predict unit Sample.profit_in_order
             (fun _ _ m => Fin m) tt tt (rfm_of Sample.history (11 * day))).
  - reflexivity.
  - intros inputs. reflexivity.
Defined.

(** ** The script as a whole, lines 17-174 *)

Ltac run_script :=
  cbn [bind print display to_csv ret lift raise exit app].

(** Unfolds the stages of [main] and splits on every step that can end the
    run. *)
Ltac stages :=
  unfold main, load, rfm_stage, cutoff_stage, model_stage, export_stage;
  run_script;
  repeat match goal with
         | |- context [lift ?x] => destruct x eqn:?; run_script
         | |- context [match observation_period_end ?d with _ => _ end] =>
             destruct (observation_period_end d) eqn:?; run_script
         end.

Section ScriptFacts.

Variable parse : string -> option Z.
Variable strftime : Z -> string.
Variable BGModel : Type.
Variable bg_fit : list Z -> list Z -> list Z -> Exn + BGModel.
Variable bg_predict : BGModel -> Q -> Z -> Z -> Z -> float64.
Variable GGModel : Type.
Variable gg_fit : list Z -> list Q -> Exn + GGModel.
Variable profit : GGModel -> list (Z * (Z * Q)) -> Series.

(** X12.  A run that ends early, by [exit()] or on an uncaught exception,
    has written no file: there is no partial output. *)
Theorem early_stop_writes_no_file
  (src : LoadResult) (out : list Event) (e : Exit) :
  main parse strftime BGModel bg_fit bg_predict GGModel gg_fit profit src
  = Stop out e ->
  filter is_write out = [].
Proof.
  destruct src; stages; intros H; try discriminate H;
    injection H as <- <-; reflexivity.
Qed.

(** X13.  A run that completes has loaded and cleaned a frame, computed a
    cutoff, fitted both models and combined them, and has written exactly
    one file, clv_predictions.csv, with one line per customer of the RFM
    table, in the order of that table: the customer id and its
    predicted_clv. *)
Theorem completed_run_writes_one_file
  (src : LoadResult) (out : list Event) (u : unit) :
  main parse strftime BGModel bg_fit bg_predict GGModel gg_fit profit src
  = Done out u ->
  exists raw df cutoff bgf ggf table,
    src = Loaded raw /\
    clean parse raw = inr df /\
    observation_period_end df = Some cutoff /\
    bg_fit (map frequency (rfm_of df cutoff)) (map recency (rfm_of df cutoff))
           (map T (rfm_of df cutoff)) = inr bgf /\
    gg_fit (map frequency (repeat_customers (rfm_of df cutoff)))
           (map monetary_value (repeat_customers (rfm_of df cutoff)))
    = inr ggf /\
    combine BGModel bg_predict GGModel profit bgf ggf (rfm_of df cutoff)
    = inr table /\
    filter is_write out
    = [ToCsv "clv_predictions.csv"
             (map (fun r => (cs_customer_id (summary r), predicted_clv r))
                  table)] /\
    map cs_customer_id (map summary table)
    = map cs_customer_id (rfm_of df cutoff).
Proof.
  destruct src as [raw| |msg]; stages; intros H; try discriminate H.
  injection H as <- _.
  match goal with
  | Hc : clean parse raw = inr ?df,
    Ho : observation_period_end ?df = Some ?c,
    Hb : bg_fit _ _ _ = inr ?bgf,
    Hg : gg_fit _ _ = inr ?ggf,
    Ht : combine _ _ _ _ ?bgf ?ggf _ = inr ?table |- _ =>
      exists raw, df, c, bgf, ggf, table;
      repeat (split; [first [reflexivity | assumption]|]);
      apply combine_inr in Ht; destruct Ht as [rows [Hrows ->]];
      destruct (loc_assign_positional _ _ _ Hrows) as [_ Hsum];
      f_equal;
      transitivity (map sc_summary rows);
        [rewrite map_map; apply map_ext; reflexivity
        |rewrite Hsum; apply initial_scores_summary]
  end.
Qed.

(** X14.  Once the file has been loaded, a run ends in one of two ways: it
    completes with exit status 0, or it dies on an uncaught exception with
    exit status 1; [exit()] is reached only on a load failure. *)
Theorem loaded_run_completes_or_raises (raw : DataFrame) :
  (exists out,
      main parse strftime BGModel bg_fit bg_predict GGModel gg_fit profit
           (Loaded raw) = Done out tt /\
      status (main parse strftime BGModel bg_fit bg_predict GGModel gg_fit
                   profit (Loaded raw)) = 0) \/
  (exists out e,
      main parse strftime BGModel bg_fit bg_predict GGModel gg_fit profit
           (Loaded raw) = Stop out (Uncaught e) /\
      status (main parse strftime BGModel bg_fit bg_predict GGModel gg_fit
                   profit (Loaded raw)) = 1).
Proof.
  stages;
    solve [ left; eexists; split; reflexivity
          | right; eexists; eexists; split; reflexivity ].
Qed.

End ScriptFacts.

Lemma early_stop_writes_no_file_witness :
  filter is_write
         (output (main Sample.parse Sample.strftime unit Sample.bg_fit_fails
                       Sample.bg_predict unit Sample.gg_fit
                       Sample.profit_in_order (Loaded Sample.history)))
  = [].
Proof.
  apply (early_stop_writes_no_file
           Sample.parse Sample.strftime unit Sample.bg_fit_fails
           Sample.bg_predict unit Sample.gg_fit Sample.profit_in_order
           (Loaded Sample.history)
           (output (main Sample.parse Sample.strftime unit Sample.bg_fit_fails
                         Sample.bg_predict unit Sample.gg_fit
                         Sample.profit_in_order (Loaded Sample.history)))
           (Uncaught "ConvergenceError"%string)).
  reflexivity.
Defined.

Lemma completed_run_writes_one_file_witness :
  exists raw df cutoff bgf ggf table,
    Loaded Sample.raw = Loaded raw /\
    clean Sample.parse raw = inr df /\
    observation_period_end df = Some cutoff /\
    Sample.bg_fit (map frequency (rfm_of df cutoff))
                  (map recency (rfm_of df cutoff))
                  (map T (rfm_of df cutoff)) = inr bgf /\
    Sample.gg_fit (map frequency (repeat_customers (rfm_of df cutoff)))
                  (map monetary_value (repeat_customers (rfm_of df cutoff)))
    = inr ggf /\
    combine unit Sample.bg_predict unit Sample.profit_in_order bgf ggf
            (rfm_of df cutoff) = inr table /\
    filter is_write
           (output (main Sample.parse Sample.strftime unit Sample.bg_fit
                         Sample.bg_predict unit Sample.gg_fit
                         Sample.profit_in_order (Loaded Sample.raw)))
    = [ToCsv "clv_predictions.csv"
             (map (fun r => (cs_customer_id (summary r), predicted_clv r))
                  table)] /\
    map cs_customer_id (map summary table)
    = map cs_customer_id (rfm_of df cutoff).
Proof.
  apply (completed_run_writes_one_file
           Sample.parse Sample.strftime unit Sample.bg_fit
           Sample.bg_predict unit Sample.gg_fit Sample.profit_in_order
           (Loaded Sample.raw)
           (output (main Sample.parse Sample.strftime unit Sample.bg_fit
                         Sample.bg_predict unit Sample.gg_fit
                         Sample.profit_in_order (Loaded Sample.raw)))
           tt).
  reflexivity.
Defined.

(** ** Header normalisation, lines 28-37 *)

Lemma lstrip_blank_app (l x : string) :
  blank l = true -> lstrip (l ++ x) = lstrip x.
Proof.
  unfold blank, chars. induction l as [|c l IH]; simpl; [reflexivity|].
  intros H. apply andb_true_iff in H. destruct H as [Hc Hl].
  rewrite Hc. apply IH. exact Hl.
Qed.

Lemma rstrip_blank (r : string) : blank r = true -> rstrip r = EmptyString.
Proof.
  unfold blank, chars. induction r as [|c r IH]; simpl; [reflexivity|].
  intros H. apply andb_true_iff in H. destruct H as [Hc Hr].
  rewrite (IH Hr), Hc. reflexivity.
Qed.

Lemma rstrip_app_blank (k r : string) :
  blank r = true -> rstrip (k ++ r) = rstrip k.
Proof.
  intros Hr. induction k as [|c k IH]; simpl.
  - apply rstrip_blank. exact Hr.
  - rewrite IH. reflexivity.
Qed.

Lemma rstrip_idempotent (s : string) : rstrip (rstrip s) = rstrip s.
Proof.
  induction s as [|c s IH]; simpl; [reflexivity|].
  destruct (rstrip s) as [|d t] eqn:E.
  - destruct (is_space c) eqn:Hc; simpl; [reflexivity|].
    rewrite Hc. reflexivity.
  - change (rstrip (String c (String d t)))
      with (match rstrip (String d t) with
            | EmptyString =>
                if is_space c then EmptyString else String c EmptyString
            | String d' t' => String c (String d' t')
            end).
    rewrite IH. reflexivity.
Qed.

Lemma lstrip_idempotent (s : string) : lstrip (lstrip s) = lstrip s.
Proof.
  induction s as [|c s IH]; simpl; [reflexivity|].
  destruct (is_space c) eqn:Hc; [exact IH|].
  simpl. rewrite Hc. reflexivity.
Qed.

Lemma lstrip_length (u : string) :
  (String.length (lstrip u) <= String.length u)%nat.
Proof.
  induction u as [|a u IH]; simpl; [lia|].
  destruct (is_space a); simpl; lia.
Qed.

Lemma lstrip_app_head (k r : string) :
  k <> EmptyString -> lstrip k = k -> lstrip (k ++ r) = (k ++ r)%string.
Proof.
  destruct k as [|c k]; [congruence|]. intros _. simpl.
  destruct (is_space c); [|reflexivity].
  intros H. pose proof (lstrip_length k) as L. rewrite H in L.
  simpl in L. lia.
Qed.

(** What [rstrip] leaves still starts with the same character. *)
Lemma lstrip_rstrip (s : string) :
  lstrip s = s -> lstrip (rstrip s) = rstrip s.
Proof.
  destruct s as [|c s]; simpl; [reflexivity|].
  destruct (is_space c) eqn:Hc.
  - intros H. exfalso.
    assert (L : forall u, (String.length (lstrip u) <= String.length u)%nat).
    { induction u as [|a u IHu]; simpl; [lia|].
      destruct (is_space a); simpl; lia. }
    specialize (L s). rewrite H in L. simpl in L. lia.
  - intros _. destruct (rstrip s); simpl; rewrite Hc; reflexivity.
Qed.

Lemma strip_idempotent (s : string) : strip (strip s) = strip s.
Proof.
  unfold strip.
  rewrite (lstrip_rstrip (lstrip s)) by apply lstrip_idempotent.
  apply rstrip_idempotent.
Qed.

Lemma rename_with_fixed (names : list (string * string)) (c : string) :
  ~ In c (map fst names) -> rename_with names c = c.
Proof.
  induction names as [|[k v] names IH]; simpl; [reflexivity|].
  intros H. destruct (String.eqb_spec c k) as [-> | Hne].
  - exfalso. apply H. left. reflexivity.
  - apply IH. intros Hin. apply H. right. exact Hin.
Qed.

Lemma rename_with_cases (names : list (string * string)) (c : string) :
  (In (c, rename_with names c) names) \/
  (~ In c (map fst names) /\ rename_with names c = c).
Proof.
  induction names as [|[k v] names IH]; simpl; [right; tauto|].
  destruct (String.eqb_spec c k) as [-> | Hne].
  - left. left. reflexivity.
  - destruct IH as [H | [H E]]; [left; right; exact H|].
    right. split; [|exact E]. intros [Hk | Hin]; [congruence | tauto].
Qed.

(** X16.  Normalising a header twice changes nothing more than normalising
    it once. *)
Theorem normalise_header_idempotent (columns : list string) :
  normalise_header (normalise_header columns) = normalise_header columns.
Proof.
  unfold normalise_header. rewrite map_map. apply map_ext. intros c.
  unfold rename_column.
  destruct (rename_with_cases COLUMN_NAMES (strip c)) as [H | [H E]].
  - revert H. generalize (rename_with COLUMN_NAMES (strip c)).
    intros w H. simpl in H.
    repeat (destruct H as [H | H];
            [injection H as _ <-; reflexivity|]).
    contradiction.
  - rewrite E, strip_idempotent. exact E.
Qed.

(** X17.  Each of the eight sheet headings, however much white space
    surrounds it, becomes its canonical column name. *)
Theorem padded_headings_are_renamed (k v l r : string) :
  In (k, v) COLUMN_NAMES -> blank l = true -> blank r = true ->
  normalise_header [(l ++ k ++ r)%string] = [v].
Proof.
  intros Hin Hl Hr. unfold normalise_header, strip. simpl map.
  rewrite (lstrip_blank_app l _ Hl). f_equal.
  simpl in Hin.
  repeat (destruct Hin as [Hin | Hin];
          [injection Hin as <- <-;
           rewrite lstrip_app_head by (discriminate || reflexivity);
           rewrite (rstrip_app_blank _ r Hr); reflexivity|]).
  contradiction.
Qed.

Lemma padded_headings_are_renamed_witness :
  normalise_header [("  " ++ "CustomerID" ++ " ")%string]
  = ["customer_id"%string].
Proof.
  apply padded_headings_are_renamed.
  - do 6 right. left. reflexivity.
  - reflexivity.
  - reflexivity.
Defined.

(** X18.  A heading outside the dictionary is only stripped: in particular a
    column already under its canonical name keeps it, and no other heading
    can turn into a canonical name. *)
Theorem canonical_name_origin (c v : string) :
  In v (map snd COLUMN_NAMES) ->
  (rename_column (strip c) = v <->
   strip c = v \/ In (strip c, v) COLUMN_NAMES).
Proof.
  intros Hv. unfold rename_column.
  destruct (rename_with_cases COLUMN_NAMES (strip c)) as [H | [H E]].
  - split.
    + intros <-. right. exact H.
    + intros [E | H']; [|].
      * exfalso. rewrite E in H. simpl in Hv, H.
        repeat (destruct Hv as [<- | Hv];
                [repeat (destruct H as [H | H]; [discriminate H|]);
                 contradiction|]).
        contradiction.
      * generalize (rename_with COLUMN_NAMES (strip c)) H H'. clear.
        intros w H H'. simpl in H, H'.
        repeat (destruct H as [H | H];
                [repeat (destruct H' as [H' | H']; [congruence|]);
                 contradiction|]).
        contradiction.
  - rewrite E. split; [auto|].
    intros [E' | H']; [exact E'|].
    exfalso. apply H. apply (in_map fst) in H'. exact H'.
Qed.

Lemma canonical_name_origin_witness :
  rename_column (strip " customer_id ") = "customer_id"%string <->
  strip " customer_id " = "customer_id"%string \/
  In (strip " customer_id ", "customer_id"%string) COLUMN_NAMES.
Proof.
  apply canonical_name_origin. do 6 right. left. reflexivity.
Defined.
